(** * HASS.Agent media player entity: a model of
      [custom_components/hass_agent/media_player.py]

    The entity mirrors the state a remote agent publishes over MQTT and
    forwards player commands to it.  The class [HassAgentMediaPlayerDevice]
    is embedded method by method: attributes become the fields of a record,
    a method becomes a computation in a small monad that threads the entity,
    records the calls made to the host (MQTT publish, logger, state write) and
    propagates Python exceptions. *)

From Stdlib Require Import ZArith QArith Qround Qpower Qabs Lqa.
From Stdlib Require Import String Ascii List Bool Lia.
From Stdlib Require Import DecimalString.
Import ListNotations.

Open Scope string_scope.
Set Warnings "-register-all".

(** ** Python values

    What [json.loads] can return, which is also what the handlers store in
    the entity without looking at its type.  A [dict] is an association list
    read by its first binding for a key.  Floats are taken as the rationals
    they denote. *)

Inductive pyobj : Type :=
| PyNone
| PyBool (b : bool)
| PyInt (z : Z)
| PyFloat (q : Q)
| PyStr (s : string)
| PyList (l : list pyobj)
| PyDict (d : list (string * pyobj)).

Inductive exn : Type :=
| JSONDecodeError
| KeyError (key : string)
| TypeError
| AttributeError (attr : string)
| OverflowError
| Unresolvable.

(** How a call completes: with a value, or with a raised exception. *)
Inductive Completion (A : Type) : Type :=
| Returned (a : A)
| Raised (e : exn).
Arguments Returned {A} a.
Arguments Raised {A} e.

Module Py.

(** Truth value of an object, as [if obj:] and [or] test it. *)
Definition truthy (o : pyobj) : bool :=
  match o with
  | PyNone => false
  | PyBool b => b
  | PyInt z => negb (z =? 0)%Z
  | PyFloat q => negb (Qeq_bool q 0)
  | PyStr s => negb (String.eqb s EmptyString)
  | PyList l => match l with [] => false | _ => true end
  | PyDict d => match d with [] => false | _ => true end
  end.

(** [a or b] *)
Definition or_ (a b : pyobj) : pyobj := if truthy a then a else b.

Fixpoint lookup (d : list (string * pyobj)) (k : string) : option pyobj :=
  match d with
  | [] => None
  | (k', v) :: d' => if String.eqb k' k then Some v else lookup d' k
  end.

(** [obj[key]] with a string key. *)
Definition getitem (o : pyobj) (k : string) : Completion pyobj :=
  match o with
  | PyDict d =>
      match lookup d k with
      | Some v => Returned v
      | None => Raised (KeyError k)
      end
  | _ => Raised TypeError
  end.

(** [obj.get(key)] *)
Definition get (o : pyobj) (k : string) : Completion pyobj :=
  match o with
  | PyDict d =>
      match lookup d k with
      | Some v => Returned v
      | None => Returned PyNone
      end
  | _ => Raised (AttributeError "get")
  end.

Definition lower_ascii (c : ascii) : ascii :=
  let n := nat_of_ascii c in
  if (65 <=? n)%nat && (n <=? 90)%nat then ascii_of_nat (n + 32) else c.

Fixpoint lower_string (s : string) : string :=
  match s with
  | EmptyString => EmptyString
  | String c s' => String (lower_ascii c) (lower_string s')
  end.

(** [obj.lower()].  Strings are byte strings here and the letters A-Z are
    the ones lowered; the player states compared against later are plain
    ASCII words. *)
Definition lower (o : pyobj) : Completion pyobj :=
  match o with
  | PyStr s => Returned (PyStr (lower_string s))
  | _ => Raised (AttributeError "lower")
  end.

(** [obj == "literal"] and [obj != "literal"] *)
Definition eq_str (o : pyobj) (s : string) : bool :=
  match o with
  | PyStr t => String.eqb t s
  | _ => false
  end.

Definition ne_str (o : pyobj) (s : string) : bool := negb (eq_str o s).

Definition is_None (o : pyobj) : bool :=
  match o with PyNone => true | _ => false end.

Definition isinstance_list (o : pyobj) : bool :=
  match o with PyList _ => true | _ => false end.

(** [str.startswith(prefix)] *)
Definition startswith (s p : string) : bool := String.prefix p s.

(** [round(x)] of a float with no digits argument: the nearest integer,
    a tie going to the even one. *)
Definition round (x : Q) : Z :=
  let f := Qfloor x in
  match Qcompare (x - inject_Z f) (1 # 2) with
  | Lt => f
  | Gt => (f + 1)%Z
  | Eq => if Z.even f then f else (f + 1)%Z
  end.

(** The exponent of the leading bit of a positive rational [x]: the [k] with
    [2 ^ k <= x < 2 ^ (k + 1)]. *)
Definition log2_floor (x : Q) : Z :=
  let k := (Z.log2 (Qnum x) - Z.log2 (Zpos (Qden x)))%Z in
  if Qle_bool (2 ^ k) x then k else (k - 1)%Z.

(** The result of a float operation whose exact value is [x]: the double
    nearest to [x], a tie going to the even significand, with 53 bits of
    precision and the spacing [2 ^ -1074] of the subnormals at the bottom.
    The overflow to infinity beyond the largest double is left out.
    Products and quotients of floats go through it; the difference of two
    clock readings in [available] is taken as it is. *)
Definition double (x : Q) : Q :=
  if Qeq_bool x 0 then 0
  else
    let e := Z.max (log2_floor (Qabs x) - 52) (-1074) in
    inject_Z (round (x / 2 ^ e)) * 2 ^ e.

(** Conversion of an [int] operand to [float]: the nearest double, and
    beyond the range of a double [OverflowError]. *)
Definition float_of_int (z : Z) : Completion Q :=
  if (Z.abs z <? 2 ^ 1024 - 2 ^ 970)%Z then Returned (double (inject_Z z))
  else Raised OverflowError.

(** [obj / 100.0] *)
Definition div_100 (o : pyobj) : Completion Q :=
  match o with
  | PyInt z =>
      match float_of_int z with
      | Returned q => Returned (double (q / 100))
      | Raised e => Raised e
      end
  | PyBool b => Returned (double ((if b then 1 else 0) / 100))
  | PyFloat q => Returned (double (q / 100))
  | _ => Raised TypeError
  end.

End Py.

(** ** The entity

    [DeviceEntry] is the device-registry entry the entity is built from;
    [datetime] is a UTC instant in microseconds, the resolution of Python's
    [datetime]. *)

Record DeviceEntry : Type := mkDeviceEntry {
  name : string;
  identifiers : list (string * string);
  manufacturer : pyobj;
  model : pyobj;
  sw_version : pyobj
}.

Record DeviceInfo : Type := mkDeviceInfo {
  info_identifiers : list (string * string);
  info_name : string;
  info_manufacturer : pyobj;
  info_model : pyobj;
  info_sw_version : pyobj
}.

Definition datetime : Type := Z.

(** The attributes of [HassAgentMediaPlayerDevice].  The [_attr_media_*]
    attributes are inherited from [MediaPlayerEntity], where they start as
    [None]; [entity_id] is given by the host when the entity is added.  The
    subscription table [_listeners] belongs to the MQTT helper and is left
    out. *)
Record HassAgentMediaPlayerDevice : Type := mkDevice {
  _entry_id : string;
  _name : string;
  _attr_device_info : DeviceInfo;
  _command_topic : string;
  _attr_unique_id : string;
  entity_id : option string;
  _available : bool;
  _muted : pyobj;
  _volume_level : pyobj;
  _state : pyobj;
  _media_id : string;
  _last_updated : Q;
  _attr_media_image_url : pyobj;
  _attr_media_title : pyobj;
  _attr_media_artist : pyobj;
  _attr_media_album_name : pyobj;
  _attr_media_album_artist : pyobj;
  _attr_media_duration : pyobj;
  _attr_media_position : pyobj;
  _attr_media_position_updated_at : option datetime
}.

(** Attribute assignment, [self.<attr> = v]: one function per attribute the
    methods write. *)

Definition set_available (v : bool) (d : HassAgentMediaPlayerDevice) :=
  mkDevice (_entry_id d) (_name d) (_attr_device_info d) (_command_topic d)
    (_attr_unique_id d) (entity_id d) v (_muted d) (_volume_level d) (_state
    d) (_media_id d) (_last_updated d) (_attr_media_image_url d)
    (_attr_media_title d) (_attr_media_artist d) (_attr_media_album_name d)
    (_attr_media_album_artist d) (_attr_media_duration d)
    (_attr_media_position d) (_attr_media_position_updated_at d).

Definition set_muted (v : pyobj) (d : HassAgentMediaPlayerDevice) :=
  mkDevice (_entry_id d) (_name d) (_attr_device_info d) (_command_topic d)
    (_attr_unique_id d) (entity_id d) (_available d) v (_volume_level d)
    (_state d) (_media_id d) (_last_updated d) (_attr_media_image_url d)
    (_attr_media_title d) (_attr_media_artist d) (_attr_media_album_name d)
    (_attr_media_album_artist d) (_attr_media_duration d)
    (_attr_media_position d) (_attr_media_position_updated_at d).

Definition set_volume_level (v : pyobj) (d : HassAgentMediaPlayerDevice) :=
  mkDevice (_entry_id d) (_name d) (_attr_device_info d) (_command_topic d)
    (_attr_unique_id d) (entity_id d) (_available d) (_muted d) v (_state d)
    (_media_id d) (_last_updated d) (_attr_media_image_url d)
    (_attr_media_title d) (_attr_media_artist d) (_attr_media_album_name d)
    (_attr_media_album_artist d) (_attr_media_duration d)
    (_attr_media_position d) (_attr_media_position_updated_at d).

Definition set_state (v : pyobj) (d : HassAgentMediaPlayerDevice) :=
  mkDevice (_entry_id d) (_name d) (_attr_device_info d) (_command_topic d)
    (_attr_unique_id d) (entity_id d) (_available d) (_muted d) (_volume_level
    d) v (_media_id d) (_last_updated d) (_attr_media_image_url d)
    (_attr_media_title d) (_attr_media_artist d) (_attr_media_album_name d)
    (_attr_media_album_artist d) (_attr_media_duration d)
    (_attr_media_position d) (_attr_media_position_updated_at d).

Definition set_media_id (v : string) (d : HassAgentMediaPlayerDevice) :=
  mkDevice (_entry_id d) (_name d) (_attr_device_info d) (_command_topic d)
    (_attr_unique_id d) (entity_id d) (_available d) (_muted d) (_volume_level
    d) (_state d) v (_last_updated d) (_attr_media_image_url d)
    (_attr_media_title d) (_attr_media_artist d) (_attr_media_album_name d)
    (_attr_media_album_artist d) (_attr_media_duration d)
    (_attr_media_position d) (_attr_media_position_updated_at d).

Definition set_last_updated (v : Q) (d : HassAgentMediaPlayerDevice) :=
  mkDevice (_entry_id d) (_name d) (_attr_device_info d) (_command_topic d)
    (_attr_unique_id d) (entity_id d) (_available d) (_muted d) (_volume_level
    d) (_state d) (_media_id d) v (_attr_media_image_url d) (_attr_media_title
    d) (_attr_media_artist d) (_attr_media_album_name d)
    (_attr_media_album_artist d) (_attr_media_duration d)
    (_attr_media_position d) (_attr_media_position_updated_at d).

Definition set_attr_media_image_url (v : pyobj) (d : HassAgentMediaPlayerDevice) :=
  mkDevice (_entry_id d) (_name d) (_attr_device_info d) (_command_topic d)
    (_attr_unique_id d) (entity_id d) (_available d) (_muted d) (_volume_level
    d) (_state d) (_media_id d) (_last_updated d) v (_attr_media_title d)
    (_attr_media_artist d) (_attr_media_album_name d)
    (_attr_media_album_artist d) (_attr_media_duration d)
    (_attr_media_position d) (_attr_media_position_updated_at d).

Definition set_attr_media_title (v : pyobj) (d : HassAgentMediaPlayerDevice) :=
  mkDevice (_entry_id d) (_name d) (_attr_device_info d) (_command_topic d)
    (_attr_unique_id d) (entity_id d) (_available d) (_muted d) (_volume_level
    d) (_state d) (_media_id d) (_last_updated d) (_attr_media_image_url d) v
    (_attr_media_artist d) (_attr_media_album_name d)
    (_attr_media_album_artist d) (_attr_media_duration d)
    (_attr_media_position d) (_attr_media_position_updated_at d).

Definition set_attr_media_artist (v : pyobj) (d : HassAgentMediaPlayerDevice) :=
  mkDevice (_entry_id d) (_name d) (_attr_device_info d) (_command_topic d)
    (_attr_unique_id d) (entity_id d) (_available d) (_muted d) (_volume_level
    d) (_state d) (_media_id d) (_last_updated d) (_attr_media_image_url d)
    (_attr_media_title d) v (_attr_media_album_name d)
    (_attr_media_album_artist d) (_attr_media_duration d)
    (_attr_media_position d) (_attr_media_position_updated_at d).

Definition set_attr_media_album_name (v : pyobj) (d : HassAgentMediaPlayerDevice) :=
  mkDevice (_entry_id d) (_name d) (_attr_device_info d) (_command_topic d)
    (_attr_unique_id d) (entity_id d) (_available d) (_muted d) (_volume_level
    d) (_state d) (_media_id d) (_last_updated d) (_attr_media_image_url d)
    (_attr_media_title d) (_attr_media_artist d) v (_attr_media_album_artist
    d) (_attr_media_duration d) (_attr_media_position d)
    (_attr_media_position_updated_at d).

Definition set_attr_media_album_artist (v : pyobj) (d : HassAgentMediaPlayerDevice) :=
  mkDevice (_entry_id d) (_name d) (_attr_device_info d) (_command_topic d)
    (_attr_unique_id d) (entity_id d) (_available d) (_muted d) (_volume_level
    d) (_state d) (_media_id d) (_last_updated d) (_attr_media_image_url d)
    (_attr_media_title d) (_attr_media_artist d) (_attr_media_album_name d) v
    (_attr_media_duration d) (_attr_media_position d)
    (_attr_media_position_updated_at d).

Definition set_attr_media_duration (v : pyobj) (d : HassAgentMediaPlayerDevice) :=
  mkDevice (_entry_id d) (_name d) (_attr_device_info d) (_command_topic d)
    (_attr_unique_id d) (entity_id d) (_available d) (_muted d) (_volume_level
    d) (_state d) (_media_id d) (_last_updated d) (_attr_media_image_url d)
    (_attr_media_title d) (_attr_media_artist d) (_attr_media_album_name d)
    (_attr_media_album_artist d) v (_attr_media_position d)
    (_attr_media_position_updated_at d).

Definition set_attr_media_position (v : pyobj) (d : HassAgentMediaPlayerDevice) :=
  mkDevice (_entry_id d) (_name d) (_attr_device_info d) (_command_topic d)
    (_attr_unique_id d) (entity_id d) (_available d) (_muted d) (_volume_level
    d) (_state d) (_media_id d) (_last_updated d) (_attr_media_image_url d)
    (_attr_media_title d) (_attr_media_artist d) (_attr_media_album_name d)
    (_attr_media_album_artist d) (_attr_media_duration d) v
    (_attr_media_position_updated_at d).

Definition set_attr_media_position_updated_at (v : option datetime) (d : HassAgentMediaPlayerDevice) :=
  mkDevice (_entry_id d) (_name d) (_attr_device_info d) (_command_topic d)
    (_attr_unique_id d) (entity_id d) (_available d) (_muted d) (_volume_level
    d) (_state d) (_media_id d) (_last_updated d) (_attr_media_image_url d)
    (_attr_media_title d) (_attr_media_artist d) (_attr_media_album_name d)
    (_attr_media_album_artist d) (_attr_media_duration d)
    (_attr_media_position d) v.

(** ** Host types

    [MediaPlayerState] and [MediaType] are Home Assistant's string enums: a
    member compares equal to its value, so storing a member in [_state] is
    storing that string. *)

Inductive MediaPlayerState : Type :=
| OFF | ON | IDLE | PLAYING | PAUSED | STANDBY | BUFFERING.

Definition MediaPlayerState_value (s : MediaPlayerState) : string :=
  match s with
  | OFF => "off"
  | ON => "on"
  | IDLE => "idle"
  | PLAYING => "playing"
  | PAUSED => "paused"
  | STANDBY => "standby"
  | BUFFERING => "buffering"
  end.

Definition MediaType_MUSIC : string := "music".
Definition ATTR_MEDIA_EXTRA : string := "extra".

(** The body of an MQTT message, by what [json.loads] makes of it: the
    decoded value of a JSON text, or a body that is no JSON text (which
    includes the raw bytes of a thumbnail). *)
Inductive Payload : Type :=
| Json (v : pyobj)
| NotJson (raw : string).

Record ReceiveMessage : Type := mkReceiveMessage {
  topic : string;
  payload : Payload
}.

Definition json_loads (p : Payload) : Completion pyobj :=
  match p with
  | Json v => Returned v
  | NotJson _ => Raised JSONDecodeError
  end.

(** The calls a method makes to its collaborators, in the order made.  The
    [message] of a publish is the object handed to [json.dumps]; what goes
    on the wire is its JSON text. *)
Inductive Call : Type :=
| logger_debug (fmt : string) (args : list pyobj)
| logger_error (fmt : string) (args : list pyobj)
| mqtt_async_publish (to_topic : string) (message : pyobj)
| async_write_ha_state.

(** What a handler runs against: the entity, the thumbnail slot of
    [hass.data] for this config entry, and the calls made so far. *)
Record World : Type := mkWorld {
  entity : HassAgentMediaPlayerDevice;
  thumbnail : option Payload;
  calls : list Call
}.

(** The two clocks a handler reads, at most once each per run. *)
Record Clock : Type := mkClock {
  time_time : Q;
  dt_utcnow : datetime
}.

(** ** The monad of a method body *)

Definition M (A : Type) : Type := Clock -> World -> Completion A * World.

Definition ret {A} (a : A) : M A := fun _ w => (Returned a, w).

Definition bind {A B} (m : M A) (k : A -> M B) : M B :=
  fun c w =>
    match m c w with
    | (Returned a, w') => k a c w'
    | (Raised e, w') => (Raised e, w')
    end.

Declare Scope py_scope.
Delimit Scope py_scope with py.
Notation "x <- m ;; k" := (bind m (fun x => k))
  (at level 61, m at next level, right associativity) : py_scope.
Notation "m ;; k" := (bind m (fun _ => k))
  (at level 61, right associativity) : py_scope.
Open Scope py_scope.

(** An expression that may raise. *)
Definition eval {A} (r : Completion A) : M A := fun _ w => (r, w).

Definition self : M HassAgentMediaPlayerDevice :=
  fun _ w => (Returned (entity w), w).

(** [self.<attr> = v] *)
Definition assign (f : HassAgentMediaPlayerDevice -> HassAgentMediaPlayerDevice)
  : M unit :=
  fun _ w => (Returned tt, mkWorld (f (entity w)) (thumbnail w) (calls w)).

Definition call (c : Call) : M unit :=
  fun _ w => (Returned tt, mkWorld (entity w) (thumbnail w) (calls w ++ [c])).

Definition store_thumbnail (bytes : Payload) : M unit :=
  fun _ w => (Returned tt, mkWorld (entity w) (Some bytes) (calls w)).

Definition time_now : M Q := fun c w => (Returned (time_time c), w).
Definition utcnow : M datetime := fun c w => (Returned (dt_utcnow c), w).

(** [if cond: body] *)
Definition when (cond : bool) (body : M unit) : M unit :=
  if cond then body else ret tt.

(** The entity a run ends with, its completion and the calls it made. *)
Definition run {A} (m : M A) (c : Clock) (d : HassAgentMediaPlayerDevice)
  : Completion A * World :=
  m c (mkWorld d None []).

(** ** Collaborators

    Host functions the class calls and whose results it consumes:
    the formatting of a float in an f-string, the media-source helpers and
    the URL processing of [browse_media].  [async_resolve_media] gives the
    [url] of the resolved media or raises. *)

Class Host : Type := {
  str_of_float : Q -> string;
  is_media_source_id : string -> bool;
  async_resolve_media : string -> option string -> Completion string;
  async_process_play_media_url : string -> string
}.

(** ** The class [HassAgentMediaPlayerDevice] *)

Section HassAgentMediaPlayerDevice.

Context {host : Host}.

Definition str_of_entity_id (e : option string) : string :=
  match e with Some s => s | None => "None" end.

Definition update_thumbnail (message : ReceiveMessage) : M unit :=
  store_thumbnail (payload message) ;;
  d <- self ;;
  t <- time_now ;;
  assign (set_attr_media_image_url
            (PyStr ("/api/hass_agent/" ++ str_of_entity_id (entity_id d)
                      ++ "/thumbnail.png?time=" ++ str_of_float t))).

Definition media_image_local (d : HassAgentMediaPlayerDevice) : pyobj :=
  _attr_media_image_url d.

(** Updates the media player with new data from MQTT *)
Definition updated (message : ReceiveMessage) : M unit :=
  payload <- eval (json_loads (payload message)) ;;
  v <- eval (Py.getitem payload "state") ;;
  v <- eval (Py.lower v) ;;
  assign (set_state v) ;;
  v <- eval (Py.getitem payload "volume") ;;
  assign (set_volume_level v) ;;
  v <- eval (Py.getitem payload "muted") ;;
  assign (set_muted v) ;;
  assign (set_available true) ;;
  d <- self ;;
  when (Py.ne_str (_state d) "off")
    (title <- eval (Py.getitem payload "title") ;;
     when (Py.truthy title)
       (v <- eval (Py.getitem payload "title") ;;
        assign (set_attr_media_title v) ;;
        v <- eval (Py.getitem payload "artist") ;;
        assign (set_attr_media_artist v) ;;
        v <- eval (Py.getitem payload "albumtitle") ;;
        assign (set_attr_media_album_name v) ;;
        v <- eval (Py.getitem payload "albumartist") ;;
        assign (set_attr_media_album_artist v)) ;;
     v <- eval (Py.getitem payload "duration") ;;
     assign (set_attr_media_duration v) ;;
     v <- eval (Py.getitem payload "currentposition") ;;
     assign (set_attr_media_position v) ;;
     t <- utcnow ;;
     assign (set_attr_media_position_updated_at (Some t))) ;;
  t <- time_now ;;
  assign (set_last_updated t) ;;
  call async_write_ha_state.

Definition __init__ (unique_id entry_id : string) (device : DeviceEntry)
  : HassAgentMediaPlayerDevice :=
  {| _entry_id := entry_id;
     _name := name device;
     _attr_device_info :=
       {| info_identifiers := identifiers device;
          info_name := name device;
          info_manufacturer := manufacturer device;
          info_model := model device;
          info_sw_version := sw_version device |};
     _command_topic := "hass.agent/media_player/" ++ name device ++ "/cmd";
     _attr_unique_id := "media_player_" ++ unique_id;
     entity_id := None;
     _available := false;
     _muted := PyBool false;
     _volume_level := PyInt 0;
     _state := PyStr EmptyString;
     _media_id := EmptyString;
     _last_updated := 0;
     _attr_media_image_url := PyNone;
     _attr_media_title := PyNone;
     _attr_media_artist := PyNone;
     _attr_media_album_name := PyNone;
     _attr_media_album_artist := PyNone;
     _attr_media_duration := PyNone;
     _attr_media_position := PyNone;
     _attr_media_position_updated_at := None |}.

(** Send a command *)
Definition _send_command (command : string) (data info : pyobj) : M unit :=
  call (logger_debug "Sending command: %s" [PyStr command]) ;;
  let payload :=
    PyDict [("command", PyStr command); ("data", data); ("info", info)] in
  d <- self ;;
  call (mqtt_async_publish (_command_topic d) payload).

(** Return the state of the device *)
Definition state (d : HassAgentMediaPlayerDevice) : MediaPlayerState :=
  if Py.is_None (_state d) then OFF
  else if Py.eq_str (_state d) "idle" then IDLE
  else if Py.eq_str (_state d) "playing" then PLAYING
  else if Py.eq_str (_state d) "paused" then PAUSED
  else if Py.eq_str (_state d) "standby" then STANDBY
  else if Py.eq_str (_state d) "buffering" then BUFFERING
  else IDLE.

(** Return if we're available *)
Definition available : M bool :=
  t <- time_now ;;
  d <- self ;;
  let diff := Py.round (t - _last_updated d) in
  ret (diff <? 5)%Z.

(** Return the volume level of the media player (0..1) *)
Definition volume_level (d : HassAgentMediaPlayerDevice) : Completion Q :=
  Py.div_100 (_volume_level d).

(** Send new volume_level to device. *)
Definition async_set_volume_level (volume : Q) : M unit :=
  let volume := Py.round (Py.double (volume * 100)) in
  _send_command "setvolume" (PyInt volume) PyNone.

Definition is_volume_muted (d : HassAgentMediaPlayerDevice) : pyobj :=
  _muted d.

Definition media_content_id (d : HassAgentMediaPlayerDevice) : string :=
  _media_id d.

Definition media_content_type (d : HassAgentMediaPlayerDevice) : string :=
  MediaType_MUSIC.

(** Turn off. *)
Definition async_turn_off : M unit :=
  assign (set_state (PyStr (MediaPlayerState_value IDLE))) ;;
  _send_command "pause" PyNone PyNone.

Definition async_media_seek (position : Q) : M unit :=
  assign (set_attr_media_position (PyFloat position)) ;;
  t <- utcnow ;;
  assign (set_attr_media_position_updated_at (Some t)) ;;
  _send_command "seek" (PyFloat position) PyNone.

Definition async_volume_up : M unit :=
  _send_command "volumeup" PyNone PyNone.

Definition async_volume_down : M unit :=
  _send_command "volumedown" PyNone PyNone.

Definition async_mute_volume (mute : bool) : M unit :=
  _send_command "mute" PyNone PyNone.

Definition async_media_play : M unit :=
  assign (set_state (PyStr (MediaPlayerState_value PLAYING))) ;;
  _send_command "play" PyNone PyNone.

Definition async_media_pause : M unit :=
  assign (set_state (PyStr (MediaPlayerState_value PAUSED))) ;;
  _send_command "pause" PyNone PyNone.

Definition async_media_stop : M unit :=
  assign (set_state (PyStr (MediaPlayerState_value IDLE))) ;;
  _send_command "pause" PyNone PyNone.

Definition async_media_next_track : M unit :=
  _send_command "next" PyNone PyNone.

Definition async_media_previous_track : M unit :=
  _send_command "previous" PyNone PyNone.

(** [obj.get(key) or default] *)
Definition get_or (o : pyobj) (k : string) (default : M pyobj) : M pyobj :=
  v <- eval (Py.get o k) ;;
  if Py.truthy v then ret v else default.

(** The first element of a list that [isinstance] has let through. *)
Definition first (o : pyobj) : Completion pyobj :=
  match o with
  | PyList (x :: _) => Returned x
  | _ => Raised TypeError
  end.

(** Play media source *)
Definition async_play_media (media_type media_id : string)
    (kwargs : list (string * pyobj)) : M unit :=
  if negb (Py.startswith media_type "music")
     && negb (Py.startswith media_type "audio/")
     && negb (Py.startswith media_type "provider")
  then
    call (logger_error "Invalid media type %r. Only %s is supported!"
            [PyStr media_type; PyStr MediaType_MUSIC])
  else
    call (logger_debug "Playing media: %s, %s, %s"
            [PyStr media_type; PyStr media_id; PyDict kwargs]) ;;
    media_id <-
      (if is_media_source_id media_id
       then d <- self ;; eval (async_resolve_media media_id (entity_id d))
       else ret media_id) ;;
    assign (set_media_id (async_process_play_media_url media_id)) ;;
    extra <- get_or (PyDict kwargs) ATTR_MEDIA_EXTRA (ret (PyDict [])) ;;
    metadata <- get_or extra "metadata" (ret (PyDict [])) ;;
    images <- get_or metadata "images" (ret (PyDict [])) ;;
    v <- get_or metadata "title" (ret (PyStr "Home Assistant")) ;;
    assign (set_attr_media_title v) ;;
    v <- eval (Py.get metadata "artist") ;;
    assign (set_attr_media_artist v) ;;
    v <- get_or metadata "album_name" (eval (Py.get metadata "albumtitle")) ;;
    assign (set_attr_media_album_name v) ;;
    v <- get_or metadata "album_artist"
           (eval (Py.get metadata "albumartist")) ;;
    assign (set_attr_media_album_artist v) ;;
    v <- (if Py.truthy images && Py.isinstance_list images
          then
            img <- eval (first images) ;;
            url <- eval (Py.get img "url") ;;
            if Py.truthy url then eval (Py.get img "url")
            else eval (Py.get metadata "imageUrl")
          else eval (Py.get metadata "imageUrl")) ;;
    assign (set_attr_media_image_url v) ;;
    assign (set_available true) ;;
    assign (set_state (PyStr (MediaPlayerState_value PLAYING))) ;;
    d <- self ;;
    let info :=
      PyDict [("title", _attr_media_title d);
              ("artist", _attr_media_artist d);
              ("albumtitle", _attr_media_album_name d);
              ("albumartist", _attr_media_album_artist d);
              ("image_url", _attr_media_image_url d)] in
    _send_command "playmedia" (PyStr (_media_id d)) info.

End HassAgentMediaPlayerDevice.

(** ** The entity in use

    The host runs one handler at a time, each to completion: an inbound
    message on one of the two topics, or a player command.  A handler that
    raises ends there, and what it had assigned stays assigned. *)

Inductive Input : Type :=
| state_message (m : ReceiveMessage)
| thumbnail_message (m : ReceiveMessage)
| do_turn_off
| do_media_seek (position : Q)
| do_volume_up
| do_volume_down
| do_mute_volume (mute : bool)
| do_media_play
| do_media_pause
| do_media_stop
| do_media_next_track
| do_media_previous_track
| do_set_volume_level (volume : Q)
| do_play_media (media_type media_id : string) (kwargs : list (string * pyobj)).

Section Use.

Context {host : Host}.

Definition handler (i : Input) : M unit :=
  match i with
  | state_message m => updated m
  | thumbnail_message m => update_thumbnail m
  | do_turn_off => async_turn_off
  | do_media_seek position => async_media_seek position
  | do_volume_up => async_volume_up
  | do_volume_down => async_volume_down
  | do_mute_volume mute => async_mute_volume mute
  | do_media_play => async_media_play
  | do_media_pause => async_media_pause
  | do_media_stop => async_media_stop
  | do_media_next_track => async_media_next_track
  | do_media_previous_track => async_media_previous_track
  | do_set_volume_level volume => async_set_volume_level volume
  | do_play_media media_type media_id kwargs =>
      async_play_media media_type media_id kwargs
  end.

Fixpoint deliver (inputs : list (Clock * Input)) (w : World) : World :=
  match inputs with
  | [] => w
  | (c, i) :: rest => deliver rest (snd (handler i c w))
  end.

(** The world of an entity just built from a registry entry. *)
Definition fresh (unique_id entry_id : string) (device : DeviceEntry) : World :=
  mkWorld (__init__ unique_id entry_id device) None [].

End Use.

(** The commands that change the mirror before the agent confirms. *)
Definition optimistic (i : Input) : bool :=
  match i with
  | do_media_play | do_media_pause | do_media_stop | do_turn_off
  | do_media_seek _ | do_play_media _ _ _ => true
  | _ => false
  end.

(** ** Observations on a run *)

Definition is_write (c : Call) : bool :=
  match c with async_write_ha_state => true | _ => false end.

(** How many times the host was told to write the entity's state. *)
Definition write_count (l : list Call) : nat := length (filter is_write l).

(** The messages published, with their topics. *)
Fixpoint published (l : list Call) : list (string * pyobj) :=
  match l with
  | [] => []
  | mqtt_async_publish t m :: l' => (t, m) :: published l'
  | _ :: l' => published l'
  end.

Definition returned {A} (r : Completion A) : bool :=
  match r with Returned _ => true | Raised _ => false end.

(** ** Snapshots

    The state topic carries an object with the keys [state], [volume],
    [muted], [title], [artist], [albumtitle], [albumartist], [duration] and
    [currentposition], the first of them a string. *)

Definition has_key (p : pyobj) (k : string) : bool :=
  returned (Py.getitem p k).

Definition field (p : pyobj) (k : string) : pyobj :=
  match Py.getitem p k with
  | Returned v => v
  | Raised _ => PyNone
  end.

Definition state_is_str (p : pyobj) : bool :=
  match field p "state" with PyStr _ => true | _ => false end.

Definition valid_snapshot (p : pyobj) : bool :=
  state_is_str p
  && forallb (has_key p)
       ["volume"; "muted"; "title"; "artist"; "albumtitle"; "albumartist";
        "duration"; "currentposition"].

(** The raw state of a snapshot, lower-cased. *)
Definition snapshot_state (p : pyobj) : string :=
  match field p "state" with
  | PyStr s => Py.lower_string s
  | _ => EmptyString
  end.

Definition snapshot_off (p : pyobj) : bool :=
  String.eqb (snapshot_state p) "off".

(** A state message is malformed when its body is no JSON text, or is one
    without [state], [volume] or [muted]. *)
Definition malformed (m : ReceiveMessage) : bool :=
  match json_loads (payload m) with
  | Raised _ => true
  | Returned p =>
      negb (has_key p "state" && has_key p "volume" && has_key p "muted")
  end.


(** Two entities that differ at most in [_state] and [_volume_level]. *)
Definition same_but_state_volume (d1 d2 : HassAgentMediaPlayerDevice) : Prop :=
  set_state PyNone (set_volume_level PyNone d1)
  = set_state PyNone (set_volume_level PyNone d2).

(** The contract of section 4.2 of the specification, [applySnapshot], in
    its words: state lower-cased; volume and muted overwritten; the
    availability flag set; unless the state is off, the four track fields
    replaced together when the title is truthy, and duration, position and
    the position timestamp replaced always; [lastUpdated] stamped last. *)
Definition applySnapshot (c : Clock) (p : pyobj)
    (d : HassAgentMediaPlayerDevice) : HassAgentMediaPlayerDevice :=
  let d := set_state (PyStr (snapshot_state p)) d in
  let d := set_volume_level (field p "volume") d in
  let d := set_muted (field p "muted") d in
  let d := set_available true d in
  let d :=
    if snapshot_off p then d
    else
      let d :=
        if Py.truthy (field p "title") then
          set_attr_media_album_artist (field p "albumartist")
            (set_attr_media_album_name (field p "albumtitle")
               (set_attr_media_artist (field p "artist")
                  (set_attr_media_title (field p "title") d)))
        else d in
      set_attr_media_position_updated_at (Some (dt_utcnow c))
        (set_attr_media_position (field p "currentposition")
           (set_attr_media_duration (field p "duration") d)) in
  set_last_updated (time_time c) d.

(** The track identity of the mirror, and its position fields. *)
Definition track (d : HassAgentMediaPlayerDevice)
  : pyobj * pyobj * pyobj * pyobj :=
  (_attr_media_title d, _attr_media_artist d, _attr_media_album_name d,
   _attr_media_album_artist d).

Definition snapshot_track (p : pyobj) : pyobj * pyobj * pyobj * pyobj :=
  (field p "title", field p "artist", field p "albumtitle",
   field p "albumartist").

Definition position_fields (d : HassAgentMediaPlayerDevice)
  : pyobj * pyobj * option datetime :=
  (_attr_media_duration d, _attr_media_position d,
   _attr_media_position_updated_at d).

(** A snapshot with the fields section 4.2 of the specification requires:
    a string under [state], and [volume] and [muted]. *)
Definition required_fields (p : pyobj) : bool :=
  state_is_str p && has_key p "volume" && has_key p "muted".

(** The keys [updated] looks up once the state is known not to be off, in
    the order it does. *)
Definition track_reads (p : pyobj) : list string :=
  "title"
  :: (if Py.truthy (field p "title")
      then ["artist"; "albumtitle"; "albumartist"] else [])
  ++ ["duration"; "currentposition"].

(** The first of them the snapshot does not have. *)
Definition missing_key (p : pyobj) : option string :=
  find (fun k => negb (has_key p k)) (track_reads p).

(** Whether [k] is among the keys [reads], before the key [stop]. *)
Fixpoint read_before (reads : list string) (stop : option string)
    (k : string) : bool :=
  match reads with
  | [] => false
  | r :: reads' =>
      if match stop with Some s => String.eqb r s | None => false end
      then false
      else if String.eqb r k then true
      else read_before reads' stop k
  end.

(** The value of the attribute assigned from key [k]: the snapshot's when
    [updated] gets to read [k], the one held before when it does not. *)
Definition merged (p : pyobj) (k : string) (old : pyobj) : pyobj :=
  if read_before (track_reads p) (missing_key p) k then field p k else old.


(** What [json.loads] makes of the body of a message, [None] standing in
    where it raises. *)
Definition decoded (m : ReceiveMessage) : pyobj :=
  match json_loads (payload m) with
  | Returned p => p
  | Raised _ => PyNone
  end.

(** A computation that leaves an observation of the world as it found it,
    however it completes. *)
Definition keeps {A B} (f : World -> B) (m : M A) : Prop :=
  forall c w, f (snd (m c w)) = f w.

(** The number of state writes and the stored volume, as observations. *)
Definition writes (w : World) : nat := write_count (calls w).
Definition stored_volume (w : World) : pyobj := _volume_level (entity w).




(** A computation that tells the host to write the state exactly once when
    it returns, and not at all when it raises. *)
Definition writes_once_if_returns (m : M unit) : Prop :=
  forall c w,
    writes (snd (m c w))
    = (writes w + (if returned (fst (m c w)) then 1 else 0))%nat.

(** A computation that maintains a property of the world, however it
    completes. *)
Definition maintains {A} (P : World -> Prop) (m : M A) : Prop :=
  forall c w, P w -> P (snd (m c w)).

(** ** Setting up the platform

    [async_setup_entry] asks the device registry for the device of the
    config entry and builds one entity from it.  [DOMAIN] is the
    integration's constant and [async_get_device] the registry's lookup by
    identifier set; the list handed to [async_add_entities] is given beside
    the result. *)

Record ConfigEntry : Type := mkConfigEntry {
  unique_id : string;
  entry_id : string
}.

Definition async_setup_entry (DOMAIN : string)
    (async_get_device : list (string * string) -> option DeviceEntry)
    (entry : ConfigEntry) : bool * list HassAgentMediaPlayerDevice :=
  let device := async_get_device [(DOMAIN, unique_id entry)] in
  match device with
  | None => (false, [])
  | Some device =>
      (true, [__init__ (unique_id entry) (entry_id entry) device])
  end.

(** ** Subscriptions

    What [async_added_to_hass] hands to the MQTT helper: a table from a key
    to a topic, the callback for its messages, a quality of service and,
    where given, an encoding. *)

Record Subscription : Type := mkSubscription {
  sub_topic : string;
  msg_callback : ReceiveMessage -> M unit;
  qos : Z;
  encoding : option pyobj
}.

Section Subscriptions.

Context {host : Host}.

Definition async_added_to_hass (d : HassAgentMediaPlayerDevice)
  : list (string * Subscription) :=
  [(_attr_unique_id d ++ "-state",
    {| sub_topic := "hass.agent/media_player/"
                    ++ info_name (_attr_device_info d) ++ "/state";
       msg_callback := updated;
       qos := 0;
       encoding := None |});
   (_attr_unique_id d ++ "-thumbnail",
    {| sub_topic := "hass.agent/media_player/"
                    ++ info_name (_attr_device_info d) ++ "/thumbnail";
       msg_callback := update_thumbnail;
       qos := 0;
       encoding := Some PyNone |})].

End Subscriptions.

(** ** Browsing

    [async_browse_media] routes the request to the media source with a
    filter on the content type of an item; its own [media_content_type]
    argument is not used. *)

Section Browse.

Context {Item BrowseMedia : Type} (item_media_content_type : Item -> string).

Definition async_browse_media
    (media_source_async_browse_media :
       option string -> (Item -> bool) -> Completion BrowseMedia)
    (media_content_type media_content_id : option string)
  : Completion BrowseMedia :=
  media_source_async_browse_media media_content_id
    (fun item => Py.startswith (item_media_content_type item) "audio/").

End Browse.

(** ** More observations on a run *)

(** The media types [async_play_media] goes on with. *)
Definition media_type_accepted (t : string) : bool :=
  Py.startswith t "music" || Py.startswith t "audio/"
  || Py.startswith t "provider".

Definition is_state_message (i : Input) : bool :=
  match i with state_message _ => true | _ => false end.

(** The inputs that are meant to reach the agent: every command, with
    [async_play_media] only for a media type it accepts. *)
Definition dispatches (i : Input) : bool :=
  match i with
  | state_message _ | thumbnail_message _ => false
  | do_play_media media_type _ _ => media_type_accepted media_type
  | _ => true
  end.

(** The messages published so far. *)
Definition outbox (w : World) : list (string * pyobj) := published (calls w).

(** The attributes that say which entity this is. *)
Definition identity (d : HassAgentMediaPlayerDevice)
  : string * string * DeviceInfo * string * string * option string :=
  (_entry_id d, _name d, _attr_device_info d, _command_topic d,
   _attr_unique_id d, entity_id d).

Definition last_updated (w : World) : Q := _last_updated (entity w).

Fixpoint keys_are (d : list (string * pyobj)) (ks : list string) : bool :=
  match d, ks with
  | [], [] => true
  | (k, _) :: d', k' :: ks' => String.eqb k k' && keys_are d' ks'
  | _, _ => false
  end.

(** The envelope of a command as the agent reads it: the keys [command],
    [data] and [info] in this order; no data and no info for the plain
    commands, a float for seek, an integer for setvolume, and for playmedia
    a string with the five metadata keys as info. *)
Definition well_formed_command (m : pyobj) : bool :=
  match m with
  | PyDict [(k1, PyStr cmd); (k2, data); (k3, info)] =>
      String.eqb k1 "command" && String.eqb k2 "data" && String.eqb k3 "info"
      && match data, info with
         | PyNone, PyNone =>
             existsb (String.eqb cmd)
               ["pause"; "play"; "volumeup"; "volumedown"; "mute"; "next";
                "previous"]
         | PyFloat _, PyNone => String.eqb cmd "seek"
         | PyInt _, PyNone => String.eqb cmd "setvolume"
         | PyStr _, PyDict i =>
             String.eqb cmd "playmedia"
             && keys_are i
                  ["title"; "artist"; "albumtitle"; "albumartist";
                   "image_url"]
         | _, _ => false
         end
  | _ => false
  end.

Definition to_agent (command_topic : string) (tm : string * pyobj) : bool :=
  String.eqb (fst tm) command_topic && well_formed_command (snd tm).

(** An entity whose command topic is [t] and that has published nothing
    but commands on it. *)
Definition speaks_on (t : string) (w : World) : Prop :=
  _command_topic (entity w) = t /\ forallb (to_agent t) (outbox w) = true.

Definition state_is_string (w : World) : bool :=
  match _state (entity w) with PyStr _ => true | _ => false end.

(** A computation that publishes exactly one message when it returns, and
    none when it raises. *)
Definition publishes_once_if_returns (m : M unit) : Prop :=
  forall c w,
    length (outbox (snd (m c w)))
    = (length (outbox w) + (if returned (fst (m c w)) then 1 else 0))%nat.

(** A computation that stamps [_last_updated] with the time it runs at when
    it returns, and leaves it when it raises. *)
Definition stamps_if_returns (m : M unit) : Prop :=
  forall c w,
    last_updated (snd (m c w))
    = (if returned (fst (m c w)) then time_time c else last_updated w).

(** What holds of the world a computation returns in, from a world that
    satisfies [P]. *)
Definition returns_in (P : World -> Prop) (m : M unit) (Q : World -> Prop)
  : Prop :=
  forall c w, P w -> returned (fst (m c w)) = true -> Q (snd (m c w)).

(** A value [volume_level] can divide. *)
Definition numeric (o : pyobj) : bool :=
  match o with
  | PyInt _ | PyFloat _ | PyBool _ => true
  | _ => false
  end.

Definition is_dict (o : pyobj) : bool :=
  match o with PyDict _ => true | _ => false end.

(** The play state a stored state string stands for; [state] has no branch
    for off nor for on. *)
Definition read_back (s : MediaPlayerState) : MediaPlayerState :=
  match s with
  | OFF | ON => IDLE
  | _ => s
  end.

(** An entity with the identity, the media id and the image URL of [d] and
    any other attributes. *)
Definition remirror (d : HassAgentMediaPlayerDevice) (available : bool)
    (muted volume st : pyobj) (updated_at : Q)
    (title artist album_name album_artist duration position : pyobj)
    (position_updated_at : option datetime) : HassAgentMediaPlayerDevice :=
  mkDevice (_entry_id d) (_name d) (_attr_device_info d) (_command_topic d)
    (_attr_unique_id d) (entity_id d) available muted volume st (_media_id d)
    updated_at (_attr_media_image_url d) title artist album_name album_artist
    duration position position_updated_at.

(** The message [async_play_media] publishes for an entity, from what the
    entity holds. *)
Definition playmedia_message (d : HassAgentMediaPlayerDevice) : pyobj :=
  PyDict [("command", PyStr "playmedia"); ("data", PyStr (_media_id d));
          ("info",
           PyDict [("title", _attr_media_title d);
                   ("artist", _attr_media_artist d);
                   ("albumtitle", _attr_media_album_name d);
                   ("albumartist", _attr_media_album_artist d);
                   ("image_url", _attr_media_image_url d)])].

(** An entity that reads as playing a titled medium, the last thing done
    being the publication of what it now holds. *)
Definition playing_what_it_sent (w : World) : Prop :=
  let d := entity w in
  _available d = true
  /\ _state d = PyStr "playing"
  /\ Py.truthy (_attr_media_title d) = true
  /\ exists cs,
       calls w
       = (cs ++ [logger_debug "Sending command: %s" [PyStr "playmedia"];
                 mqtt_async_publish (_command_topic d) (playmedia_message d)])
           %list.

(** The topics of a subscription table. *)
Definition topics (subs : list (string * Subscription)) : list string :=
  map (fun s => sub_topic (snd s)) subs.

(** ** A concrete setting

    A player for a device named desk, a host with no media source set up,
    and a few messages of the agent. *)

Module Sample.

Definition host : Host := {|
  str_of_float q := NilZero.string_of_int (Z.to_int (Qfloor q)) ++ ".0";
  is_media_source_id s := Py.startswith s "media-source://";
  async_resolve_media _ _ := Raised Unresolvable;
  async_process_play_media_url url := url
|}.

Definition device : DeviceEntry :=
  {| name := "desk";
     identifiers := [("hass_agent", "desk-1")];
     manufacturer := PyStr "HASS.Agent Team";
     model := PyStr "Microsoft Windows";
     sw_version := PyStr "2022.14.0" |}.

Definition player : HassAgentMediaPlayerDevice :=
  __init__ "desk-1" "entry-1" device.

Definition state_topic : string := "hass.agent/media_player/desk/state".

(** A clock read [t] seconds after the epoch. *)
Definition at_ (t : Q) : Clock :=
  mkClock t (Qfloor (t * 1000000)).

Definition snapshot (st : string) (volume : Z) (title : pyobj) : pyobj :=
  PyDict [("state", PyStr st); ("volume", PyInt volume);
          ("muted", PyBool false); ("title", title);
          ("artist", PyStr "Artist B"); ("albumtitle", PyStr "Album B");
          ("albumartist", PyStr "Various"); ("duration", PyInt 240);
          ("currentposition", PyInt 17)].

Definition playing : ReceiveMessage :=
  mkReceiveMessage state_topic (Json (snapshot "Playing" 40 (PyStr "Song B"))).

Definition untitled : ReceiveMessage :=
  mkReceiveMessage state_topic (Json (snapshot "playing" 40 PyNone)).

Definition off : ReceiveMessage :=
  mkReceiveMessage state_topic (Json (snapshot "off" 40 PyNone)).


(** A body that is no JSON text. *)
Definition garbage : ReceiveMessage :=
  mkReceiveMessage state_topic (NotJson "state=playing").

(** A JSON object with [state] and nothing else. *)
Definition state_only : ReceiveMessage :=
  mkReceiveMessage state_topic (Json (PyDict [("state", PyStr "playing")])).

(** The player once it has mirrored a title. *)
Definition tuned : HassAgentMediaPlayerDevice :=
  entity (snd (run (updated playing) (at_ 100) player)).


(** The registry with the one device, and its config entry. *)
Definition registry (ids : list (string * string)) : option DeviceEntry :=
  match ids with
  | [(domain, id)] =>
      if String.eqb domain "hass_agent" && String.eqb id "desk-1"
      then Some device else None
  | _ => None
  end.

Definition entry : ConfigEntry := mkConfigEntry "desk-1" "entry-1".

(** A snapshot whose volume is null. *)
Definition no_volume : ReceiveMessage :=
  mkReceiveMessage state_topic
    (Json (PyDict [("state", PyStr "playing"); ("volume", PyNone);
                   ("muted", PyBool false); ("title", PyStr "Song B");
                   ("artist", PyStr "Artist B");
                   ("albumtitle", PyStr "Album B");
                   ("albumartist", PyStr "Various"); ("duration", PyInt 240);
                   ("currentposition", PyInt 17)])).

(** A snapshot with the required fields and a title, and no artist. *)
Definition no_artist : ReceiveMessage :=
  mkReceiveMessage state_topic
    (Json (PyDict [("state", PyStr "playing"); ("volume", PyInt 40);
                   ("muted", PyBool false); ("title", PyStr "Song C");
                   ("duration", PyInt 200); ("currentposition", PyInt 5)])).

(** The double written 0.015. *)
Definition volume_0_015 : Q := 1080863910568919 # 72057594037927936.

Definition thumb : ReceiveMessage :=
  mkReceiveMessage "hass.agent/media_player/desk/thumbnail" (NotJson "PNG").

End Sample.

(** * Properties *)

(** ** Running [updated] *)

Lemma getitem_field p k :
  has_key p k = true -> Py.getitem p k = Returned (field p k).
Proof.
  unfold has_key, field. destruct (Py.getitem p k); simpl; congruence.
Qed.

Lemma valid_snapshot_keys p :
  valid_snapshot p = true ->
  (exists s, field p "state" = PyStr s) /\ has_key p "state" = true
  /\ has_key p "volume" = true /\ has_key p "muted" = true
  /\ has_key p "title" = true /\ has_key p "artist" = true
  /\ has_key p "albumtitle" = true /\ has_key p "albumartist" = true
  /\ has_key p "duration" = true /\ has_key p "currentposition" = true.
Proof.
  unfold valid_snapshot. simpl. intros H.
  repeat (apply andb_true_iff in H; destruct H as [?H H]).
  repeat split; try assumption.
  - unfold state_is_str in *. destruct (field p "state"); try discriminate.
    eauto.
  - unfold state_is_str, field, has_key in *.
    destruct (Py.getitem p "state"); [reflexivity | discriminate].
Qed.

(** On a valid snapshot [updated] returns, does what the contract says and
    tells the host once. *)
Lemma updated_valid (c : Clock) (m : ReceiveMessage) (p : pyobj) (w : World) :
  json_loads (payload m) = Returned p ->
  valid_snapshot p = true ->
  updated m c w
  = (Returned tt,
     mkWorld (applySnapshot c p (entity w)) (thumbnail w)
       (calls w ++ [async_write_ha_state])).
Proof.
  intros Hp Hv.
  destruct (valid_snapshot_keys p Hv)
    as ([s Hs] & Kst & Kv & Km & Kt & Ka & Kat & Kaa & Kd & Kc).
  unfold updated, applySnapshot, snapshot_off, snapshot_state, bind, eval.
  rewrite Hp. cbn -[Py.getitem Py.truthy String.eqb].
  rewrite ?getitem_field by assumption.
  rewrite Hs. cbn -[Py.getitem Py.truthy String.eqb].
  rewrite ?getitem_field by assumption.
  unfold Py.ne_str, Py.eq_str.
  destruct (String.eqb (Py.lower_string s) "off");
    cbn -[Py.getitem Py.truthy String.eqb].
  - reflexivity.
  - rewrite ?getitem_field by assumption.
    destruct (Py.truthy (field p "title"));
      cbn -[Py.getitem Py.truthy String.eqb];
      rewrite ?getitem_field by assumption; reflexivity.
Qed.

(** ** Rounding *)

Lemma floor_cases (f : Z) :
  ((f <= 3)%Z /\ inject_Z f <= 3) \/ (f = 4%Z /\ inject_Z f == 4)
  \/ ((5 <= f)%Z /\ 5 <= inject_Z f).
Proof.
  destruct (Z_le_gt_dec f 3) as [L | G].
  - left. split; [exact L | ]. rewrite Zle_Qle in L. exact L.
  - destruct (Z.eq_dec f 4) as [E | N].
    + right; left. split; [exact E | ]. rewrite E. reflexivity.
    + right; right. assert (H : (5 <= f)%Z) by lia.
      split; [exact H | ]. rewrite Zle_Qle in H. exact H.
Qed.

Lemma Qle_bool_intro (b : bool) (x y : Q) :
  (b = true <-> x <= y) -> b = Qle_bool x y.
Proof.
  intros Hb. destruct (Qle_bool x y) eqn:E.
  - apply Qle_bool_iff in E. tauto.
  - destruct b; [ | reflexivity].
    assert (H : x <= y) by tauto.
    apply Qle_bool_iff in H. congruence.
Qed.

(** Rounded to the nearest integer, a difference is below 5 exactly when it
    is at most 4.5: the tie at 4.5 goes down to 4. *)
Lemma round_lt_5 (x : Q) : (Py.round x <? 5)%Z = Qle_bool x (9 # 2).
Proof.
  unfold Py.round.
  pose proof (Qfloor_le x) as Hlo.
  pose proof (Qlt_floor x) as Hhi.
  remember (Qfloor x) as f eqn:Hf. clear Hf.
  rewrite inject_Z_plus in Hhi.
  change (inject_Z 1) with 1 in Hhi.
  apply Qle_bool_intro. rewrite Z.ltb_lt.
  destruct (Qcompare_spec (x - inject_Z f) (1 # 2)) as [E | L | G].
  - destruct (Z.even f) eqn:Ev;
      destruct (floor_cases f) as [[Hz Hq] | [[Hz Hq] | [Hz Hq]]];
      try (rewrite Hz in Ev; discriminate Ev);
      split; intros; first [lia | lra].
  - destruct (floor_cases f) as [[Hz Hq] | [[Hz Hq] | [Hz Hq]]];
      split; intros; first [lia | lra].
  - destruct (floor_cases f) as [[Hz Hq] | [[Hz Hq] | [Hz Hq]]];
      split; intros; first [lia | lra].
Qed.

(** ** Availability *)

(** C2 (as the code has it): for every [_last_updated] and every read
    time, [available] is true exactly when the difference, rounded to the
    nearest integer, is below 5, that is when [now - _last_updated] is at
    most 4.5 seconds; it is computed from the clock at each read and stores
    nothing. *)
Theorem available_iff_within_4_5 (c : Clock) (w : World) :
  available c w
  = (Returned (Qle_bool (time_time c - _last_updated (entity w)) (9 # 2)), w).
Proof.
  unfold available, bind, time_now, self, ret.
  rewrite round_lt_5. reflexivity.
Qed.

(** C2 as stated fails: 4.75 seconds after the last update the difference
    is below 5 seconds and the entity is reported unavailable. *)
Lemma available_false_at_4_75 :
  let c := Sample.at_ (19 # 4) in
  time_time c - _last_updated Sample.player < 5
  /\ fst (run available c Sample.player) = Returned false.
Proof.
  split; reflexivity.
Qed.

(** ** Commands *)

(** C8: stop, turn off and pause each publish one message, on the command
    topic, whose [command] is the string pause, with no data and no info;
    stop and turn off leave the play state at idle, pause at paused. *)
Theorem stop_turn_off_pause_publish_pause (c : Clock) (w : World) :
  let pause_message :=
    PyDict [("command", PyStr "pause"); ("data", PyNone); ("info", PyNone)] in
  let sent := [logger_debug "Sending command: %s" [PyStr "pause"];
               mqtt_async_publish (_command_topic (entity w)) pause_message] in
  (async_media_stop c w
   = (Returned tt,
      mkWorld (set_state (PyStr "idle") (entity w)) (thumbnail w)
        (calls w ++ sent))
   /\ async_turn_off c w
      = (Returned tt,
         mkWorld (set_state (PyStr "idle") (entity w)) (thumbnail w)
           (calls w ++ sent))
   /\ async_media_pause c w
      = (Returned tt,
         mkWorld (set_state (PyStr "paused") (entity w)) (thumbnail w)
           (calls w ++ sent)))
  /\ published sent = [(_command_topic (entity w), pause_message)]
  /\ state (entity (snd (async_media_stop c w))) = IDLE
  /\ state (entity (snd (async_turn_off c w))) = IDLE
  /\ state (entity (snd (async_media_pause c w))) = PAUSED.
Proof.
  cbv zeta.
  assert (Happ : forall (l : list Call) a b,
             ((l ++ [a]) ++ [b] = l ++ [a; b])%list)
    by (intros; rewrite <- app_assoc; reflexivity).
  unfold async_media_stop, async_turn_off, async_media_pause, _send_command,
    bind, assign, call, self; cbn.
  rewrite !Happ. repeat split.
Qed.

(** C9: a media type that starts with none of music, audio/ and provider
    makes [async_play_media] return after logging the error: nothing is
    published and no attribute of the entity is written. *)
Theorem play_media_rejects_other_types {host : Host}
    (media_type media_id : string) (kwargs : list (string * pyobj))
    (c : Clock) (w : World) :
  Py.startswith media_type "music" = false ->
  Py.startswith media_type "audio/" = false ->
  Py.startswith media_type "provider" = false ->
  let r := async_play_media media_type media_id kwargs c w in
  fst r = Returned tt
  /\ entity (snd r) = entity w
  /\ thumbnail (snd r) = thumbnail w
  /\ published (calls (snd r)) = published (calls w)
  /\ write_count (calls (snd r)) = write_count (calls w).
Proof.
  intros Hm Ha Hp. unfold async_play_media. rewrite Hm, Ha, Hp. cbn.
  repeat split.
  - induction (calls w) as [ | [ | | | ] l IH]; cbn; congruence.
  - unfold write_count. rewrite filter_app, length_app. cbn. lia.
Qed.

Lemma play_media_rejects_video_mp4 :
  let w := mkWorld Sample.tuned None [] in
  Py.startswith "video/mp4" "music" = false
  /\ Py.startswith "video/mp4" "audio/" = false
  /\ Py.startswith "video/mp4" "provider" = false
  /\ (let r := async_play_media (host := Sample.host) "video/mp4" "id123" []
                 (Sample.at_ 1) w in
      fst r = Returned tt
      /\ entity (snd r) = entity w
      /\ thumbnail (snd r) = thumbnail w
      /\ published (calls (snd r)) = published (calls w)
      /\ write_count (calls (snd r)) = write_count (calls w)).
Proof.
  exact (conj eq_refl (conj eq_refl (conj eq_refl
           (play_media_rejects_other_types (host := Sample.host)
              "video/mp4" "id123" [] (Sample.at_ 1)
              (mkWorld Sample.tuned None []) eq_refl eq_refl eq_refl)))).
Defined.

(** ** Snapshots *)

(** C5 (as the code has it): for a snapshot with the required fields whose
    lower-cased state is not off, [updated] looks up title, then artist,
    albumtitle and albumartist when the title is truthy, then duration and
    currentposition, and assigns each attribute as it goes.  When none of
    these keys is missing it returns: the four track fields are the
    snapshot's when its title is truthy and the ones held before when it is
    not, and duration, position and the position timestamp are the
    snapshot's two and the current UTC time.  When one is missing it raises
    [KeyError] for the first missing key: the attributes read before it are
    overwritten already, the others and the position timestamp are as
    before. *)
Theorem updated_track_unit_or_key_error (c : Clock)
    (d : HassAgentMediaPlayerDevice) (m : ReceiveMessage) (p : pyobj) :
  json_loads (payload m) = Returned p ->
  required_fields p = true ->
  snapshot_off p = false ->
  let r := run (updated m) c d in
  let d' := entity (snd r) in
  fst r = match missing_key p with
          | None => Returned tt
          | Some k => Raised (KeyError k)
          end
  /\ track d'
     = (if Py.truthy (field p "title") then field p "title"
        else _attr_media_title d,
        merged p "artist" (_attr_media_artist d),
        merged p "albumtitle" (_attr_media_album_name d),
        merged p "albumartist" (_attr_media_album_artist d))
  /\ position_fields d'
     = (merged p "duration" (_attr_media_duration d),
        merged p "currentposition" (_attr_media_position d),
        match missing_key p with
        | None => Some (dt_utcnow c)
        | Some _ => _attr_media_position_updated_at d
        end)
  /\ (missing_key p = None ->
      track d'
      = (if Py.truthy (field p "title") then snapshot_track p else track d)
      /\ position_fields d'
         = (field p "duration", field p "currentposition",
            Some (dt_utcnow c))).
Proof.
  intros Hp Hr Hoff. cbv zeta.
  unfold run, updated, bind, eval. rewrite Hp.
  destruct p as [ | | | | | | l]; try discriminate Hr.
  unfold required_fields, state_is_str, snapshot_off, snapshot_state,
    missing_key, track_reads, merged, snapshot_track, has_key, field,
    Py.getitem in *.
  destruct (Py.lookup l "state") as [[ | | | | s | | ] | ];
    try discriminate Hr.
  destruct (Py.lookup l "volume") as [vol | ]; try discriminate Hr.
  destruct (Py.lookup l "muted") as [mu | ]; try discriminate Hr.
  destruct d.
  cbn -[String.eqb Py.lower_string Py.lookup Py.truthy].
  unfold Py.ne_str, Py.eq_str. rewrite Hoff.
  repeat first
    [ progress
        (cbn -[Py.lower_string Py.lookup Py.truthy];
         unfold has_key, field, Py.getitem;
         change (Py.truthy PyNone) with false;
         repeat match goal with
                | E : Py.lookup l ?k = _ |- context [Py.lookup l ?k] =>
                    rewrite E
                | E : Py.truthy ?v = _ |- context [Py.truthy ?v] =>
                    rewrite E
                end)
    | match goal with
      | |- context [Py.truthy ?v] => destruct (Py.truthy v) eqn:?
      | |- context [Py.lookup l ?k] => destruct (Py.lookup l k) eqn:?
      end ];
    repeat apply conj; try reflexivity; try discriminate;
    intros _; split; reflexivity.
Qed.

Lemma updated_track_unit_or_key_error_untitled :
  let p := Sample.snapshot "playing" 40 PyNone in
  let c := Sample.at_ 160 in
  let d := Sample.tuned in
  json_loads (payload Sample.untitled) = Returned p
  /\ required_fields p = true
  /\ snapshot_off p = false
  /\ (let r := run (updated Sample.untitled) c d in
      let d' := entity (snd r) in
      fst r = match missing_key p with
              | None => Returned tt
              | Some k => Raised (KeyError k)
              end
      /\ track d'
         = (if Py.truthy (field p "title") then field p "title"
            else _attr_media_title d,
            merged p "artist" (_attr_media_artist d),
            merged p "albumtitle" (_attr_media_album_name d),
            merged p "albumartist" (_attr_media_album_artist d))
      /\ position_fields d'
         = (merged p "duration" (_attr_media_duration d),
            merged p "currentposition" (_attr_media_position d),
            match missing_key p with
            | None => Some (dt_utcnow c)
            | Some _ => _attr_media_position_updated_at d
            end)
      /\ (missing_key p = None ->
          track d'
          = (if Py.truthy (field p "title") then snapshot_track p
             else track d)
          /\ position_fields d'
             = (field p "duration", field p "currentposition",
                Some (dt_utcnow c)))).
Proof.
  exact (conj eq_refl (conj eq_refl (conj eq_refl
           (updated_track_unit_or_key_error (Sample.at_ 160) Sample.tuned
              Sample.untitled (Sample.snapshot "playing" 40 PyNone)
              eq_refl eq_refl eq_refl)))).
Defined.

(** C5 as stated fails: a snapshot with the required fields and a truthy
    title, and no artist, makes [updated] overwrite the title alone and
    raise [KeyError]; duration, position and the position timestamp are not
    updated. *)
Lemma updated_title_without_artist_overwrites_title_alone :
  let p := decoded Sample.no_artist in
  let c := Sample.at_ 160 in
  let r := run (updated Sample.no_artist) c Sample.tuned in
  required_fields p = true
  /\ snapshot_off p = false
  /\ Py.truthy (field p "title") = true
  /\ fst r = Raised (KeyError "artist")
  /\ track Sample.tuned
     = (PyStr "Song B", PyStr "Artist B", PyStr "Album B", PyStr "Various")
  /\ track (entity (snd r))
     = (PyStr "Song C", PyStr "Artist B", PyStr "Album B", PyStr "Various")
  /\ position_fields (entity (snd r)) = position_fields Sample.tuned
  /\ position_fields (entity (snd r))
     <> (field p "duration", field p "currentposition", Some (dt_utcnow c)).
Proof.
  cbv zeta. repeat apply conj; vm_compute; try reflexivity. discriminate.
Qed.





(** ** Malformed state messages *)

(** C1 (as the code has it): a state message whose body is no JSON text, or
    is one without [state], [volume] or [muted], makes [updated] raise to its
    caller without telling the host.  The entity is as before when the body
    is no JSON text or has no string under [state]; otherwise [_state] has
    been overwritten already, and [_volume_level] too when only [muted] is
    missing; every other attribute is as before. *)
Theorem updated_malformed_raises (c : Clock) (d : HassAgentMediaPlayerDevice)
    (m : ReceiveMessage) :
  malformed m = true ->
  let p := decoded m in
  exists e d',
    run (updated m) c d = (Raised e, mkWorld d' None [])
    /\ same_but_state_volume d' d
    /\ d' = (if state_is_str p
             then
               let d1 := set_state (PyStr (snapshot_state p)) d in
               if has_key p "volume"
               then set_volume_level (field p "volume") d1
               else d1
             else d).
Proof.
  unfold malformed, decoded, run, updated, bind, eval.
  destruct (json_loads (payload m)) as [p | e]; intros Hm; cbv zeta.
  2: { exists e, d. repeat apply conj; reflexivity. }
  unfold state_is_str, snapshot_state, has_key, field in *.
  destruct (Py.getitem p "state") as [st | e1]; cbn.
  2: { exists e1, d. repeat apply conj; reflexivity. }
  destruct st; cbn;
    try (eexists; exists d; repeat apply conj; reflexivity).
  destruct (Py.getitem p "volume") as [vol | e2]; cbn.
  2: { eexists; eexists. repeat apply conj; reflexivity. }
  destruct (Py.getitem p "muted") as [mu | e3]; cbn in *;
    [discriminate Hm | ].
  eexists; eexists. repeat apply conj; reflexivity.
Qed.

Lemma updated_malformed_raises_garbage :
  let m := Sample.garbage in
  let d := Sample.tuned in
  malformed m = true
  /\ (let p := decoded m in
      exists e d',
        run (updated m) (Sample.at_ 160) d = (Raised e, mkWorld d' None [])
        /\ same_but_state_volume d' d
        /\ d' = (if state_is_str p
                 then
                   let d1 := set_state (PyStr (snapshot_state p)) d in
                   if has_key p "volume"
                   then set_volume_level (field p "volume") d1
                   else d1
                 else d)).
Proof.
  exact (conj eq_refl
           (updated_malformed_raises (Sample.at_ 160) Sample.tuned
              Sample.garbage eq_refl)).
Defined.

(** C1 as stated fails: a body with [state] and nothing else makes
    [updated] raise [KeyError], and by then [_state] is overwritten. *)
Lemma updated_state_only_raises_midway :
  malformed Sample.state_only = true
  /\ run (updated Sample.state_only) (Sample.at_ 160) Sample.player
     = (Raised (KeyError "volume"),
        mkWorld (set_state (PyStr "playing") Sample.player) None [])
  /\ _state (set_state (PyStr "playing") Sample.player)
     <> _state Sample.player.
Proof.
  repeat apply conj; try reflexivity. discriminate.
Qed.

(** ** The play state *)

(** C3 (what the code does): after a snapshot whose state is off the
    [state] property answers idle, since no branch of it tests for off. *)
Theorem state_after_off_snapshot_is_idle :
  let r := run (updated Sample.off) (Sample.at_ 160) Sample.tuned in
  fst r = Returned tt
  /\ _state (entity (snd r)) = PyStr "off"
  /\ state (entity (snd r)) = IDLE.
Proof.
  repeat apply conj; reflexivity.
Qed.

(** ** What a method leaves alone *)

Section Keeps.

Context {B : Type} (f : World -> B).

Lemma keeps_ret {A} (a : A) : keeps f (ret a).
Proof. intros c w. reflexivity. Qed.

Lemma keeps_eval {A} (r : Completion A) : keeps f (eval r).
Proof. intros c w. reflexivity. Qed.

Lemma keeps_self : keeps f self.
Proof. intros c w. reflexivity. Qed.

Lemma keeps_time_now : keeps f time_now.
Proof. intros c w. reflexivity. Qed.

Lemma keeps_utcnow : keeps f utcnow.
Proof. intros c w. reflexivity. Qed.

Lemma keeps_bind {A C} (m : M A) (k : A -> M C) :
  keeps f m -> (forall a, keeps f (k a)) -> keeps f (bind m k).
Proof.
  intros Hm Hk c w. unfold bind. specialize (Hm c w).
  destruct (m c w) as [[a | e] w']; cbn in *.
  - rewrite Hk. exact Hm.
  - exact Hm.
Qed.

Lemma keeps_when (b : bool) (body : M unit) :
  keeps f body -> keeps f (when b body).
Proof. intros H. destruct b; [exact H | apply keeps_ret]. Qed.

End Keeps.

Lemma write_count_app (l l' : list Call) :
  write_count (l ++ l') = (write_count l + write_count l')%nat.
Proof. unfold write_count. rewrite filter_app, length_app. reflexivity. Qed.

Lemma keeps_writes_assign g : keeps writes (assign g).
Proof. intros c w. reflexivity. Qed.

Lemma keeps_writes_store b : keeps writes (store_thumbnail b).
Proof. intros c w. reflexivity. Qed.

Lemma keeps_writes_call (x : Call) :
  is_write x = false -> keeps writes (call x).
Proof.
  intros Hx c w. unfold writes, call. cbn [snd calls].
  rewrite write_count_app. unfold write_count at 2.
  cbn [filter]. rewrite Hx. cbn [length]. lia.
Qed.

Lemma keeps_volume_assign g :
  (forall d, _volume_level (g d) = _volume_level d) ->
  keeps stored_volume (assign g).
Proof. intros Hg c w. unfold stored_volume, assign. cbn. apply Hg. Qed.

Lemma keeps_volume_store b : keeps stored_volume (store_thumbnail b).
Proof. intros c w. reflexivity. Qed.

Lemma keeps_volume_call (x : Call) : keeps stored_volume (call x).
Proof. intros c w. reflexivity. Qed.

Ltac keeps_step :=
  lazymatch goal with
  | |- keeps _ (bind _ _) => apply keeps_bind; [ | intros ? ]
  | |- keeps _ (ret _) => apply keeps_ret
  | |- keeps _ (eval _) => apply keeps_eval
  | |- keeps _ self => apply keeps_self
  | |- keeps _ time_now => apply keeps_time_now
  | |- keeps _ utcnow => apply keeps_utcnow
  | |- keeps _ (when _ _) => apply keeps_when
  | |- keeps _ (if ?b then _ else _) => destruct b
  | |- keeps writes (assign _) => apply keeps_writes_assign
  | |- keeps writes (store_thumbnail _) => apply keeps_writes_store
  | |- keeps writes (call _) => apply keeps_writes_call; reflexivity
  | |- keeps stored_volume (assign _) =>
      apply keeps_volume_assign; intros ?; reflexivity
  | |- keeps stored_volume (store_thumbnail _) => apply keeps_volume_store
  | |- keeps stored_volume (call _) => apply keeps_volume_call
  | |- keeps _ (_send_command _ _ _) => unfold _send_command; cbv zeta
  | |- keeps _ (get_or _ _ _) => unfold get_or
  end.

Ltac keeps_tac := repeat keeps_step.

Section Commands.

Context {host : Host}.

Lemma command_keeps_writes (i : Input) :
  (forall m, i <> state_message m) -> keeps writes (handler i).
Proof.
  intros Hi. destruct i; cbn [handler];
    try (exfalso; eapply Hi; reflexivity);
    unfold update_thumbnail, async_turn_off, async_media_seek,
      async_volume_up, async_volume_down, async_mute_volume,
      async_media_play, async_media_pause, async_media_stop,
      async_media_next_track, async_media_previous_track,
      async_set_volume_level, async_play_media; cbv zeta; keeps_tac.
Qed.


End Commands.

(** ** Telling the host *)

Lemma writes_once_bind {A} (m : M A) (k : A -> M unit) :
  keeps writes m -> (forall a, writes_once_if_returns (k a)) ->
  writes_once_if_returns (bind m k).
Proof.
  intros Hm Hk c w. unfold bind. specialize (Hm c w).
  destruct (m c w) as [[a | e] w']; cbn in *.
  - rewrite Hk, Hm. reflexivity.
  - rewrite Hm. lia.
Qed.

Lemma writes_once_call : writes_once_if_returns (call async_write_ha_state).
Proof.
  intros c w. unfold writes, call. cbn [snd calls fst returned].
  rewrite write_count_app. reflexivity.
Qed.

Lemma updated_writes_once (m : ReceiveMessage) :
  writes_once_if_returns (updated m).
Proof.
  unfold updated.
  repeat (apply writes_once_bind; [keeps_tac | intros ?]).
  apply writes_once_call.
Qed.

(** C4 (as the code has it): the host is told to write the state exactly
    once by a state message that [updated] applies to the end, not at all by
    one on which it raises, and not at all by any command, the optimistic
    ones (play, pause, stop, turn off, seek, play media) included. *)
Theorem write_state_once_per_applied_snapshot_only {host : Host}
    (i : Input) (c : Clock) (w : World) :
  let r := handler i c w in
  writes (snd r)
  = (writes w
     + match i with
       | state_message _ => if returned (fst r) then 1 else 0
       | _ => 0
       end)%nat.
Proof.
  cbv zeta. destruct i;
    try (rewrite Nat.add_0_r; apply command_keeps_writes; discriminate).
  cbn [handler]. apply updated_writes_once.
Qed.

(** C4 as stated fails: play changes the mirror and publishes, and the host
    is not told. *)
Lemma media_play_does_not_write_state :
  let r := handler (host := Sample.host) do_media_play (Sample.at_ 101)
             (mkWorld Sample.tuned None []) in
  optimistic do_media_play = true
  /\ fst r = Returned tt
  /\ _state (entity (snd r)) = PyStr "playing"
  /\ length (published (calls (snd r))) = 1%nat
  /\ writes (snd r) = 0%nat.
Proof.
  repeat apply conj; reflexivity.
Qed.

(** ** The stored volume *)

Lemma maintains_bind {A C} (P : World -> Prop) (m : M A) (k : A -> M C) :
  maintains P m -> (forall a, maintains P (k a)) -> maintains P (bind m k).
Proof.
  intros Hm Hk c w Hw. unfold bind. specialize (Hm c w Hw).
  destruct (m c w) as [[a | e] w']; cbn in *.
  - apply Hk. exact Hm.
  - exact Hm.
Qed.

Lemma maintains_bind_eval {A C} (P : World -> Prop) (r : Completion A)
    (k : A -> M C) :
  (forall a, r = Returned a -> maintains P (k a)) ->
  maintains P (bind (eval r) k).
Proof.
  intros Hk c w Hw. unfold bind, eval. destruct r as [a | e]; cbn.
  - apply (Hk a eq_refl). exact Hw.
  - exact Hw.
Qed.









(** * Further properties *)

(** ** Frames, for any observation *)

Lemma published_app (l l' : list Call) :
  published (l ++ l') = (published l ++ published l')%list.
Proof. induction l as [ | [ | | | ] l IH]; cbn; congruence. Qed.

Lemma keeps_assign {B} (f : World -> B) g :
  (forall d th cs, f (mkWorld (g d) th cs) = f (mkWorld d th cs)) ->
  keeps f (assign g).
Proof. intros H c [d th cs]. apply H. Qed.

Lemma keeps_store_thumbnail {B} (f : World -> B) b :
  (forall d th cs, f (mkWorld d (Some b) cs) = f (mkWorld d th cs)) ->
  keeps f (store_thumbnail b).
Proof. intros H c [d th cs]. apply H. Qed.

Lemma keeps_call {B} (f : World -> B) x :
  (forall d th cs, f (mkWorld d th (cs ++ [x])) = f (mkWorld d th cs)) ->
  keeps f (call x).
Proof. intros H c [d th cs]. apply H. Qed.

Ltac frame_step tac :=
  lazymatch goal with
  | |- keeps _ (bind _ _) => apply keeps_bind; [ | intros ? ]
  | |- keeps _ (ret _) => apply keeps_ret
  | |- keeps _ (eval _) => apply keeps_eval
  | |- keeps _ self => apply keeps_self
  | |- keeps _ time_now => apply keeps_time_now
  | |- keeps _ utcnow => apply keeps_utcnow
  | |- keeps _ (when _ _) => apply keeps_when
  | |- keeps _ (if ?b then _ else _) => destruct b
  | |- keeps _ (assign _) => apply keeps_assign; tac
  | |- keeps _ (store_thumbnail _) => apply keeps_store_thumbnail; tac
  | |- keeps _ (call _) => apply keeps_call; tac
  | |- keeps _ (_send_command _ _ _) => unfold _send_command; cbv zeta
  | |- keeps _ (get_or _ _ _) => unfold get_or
  end.

Ltac frame tac := repeat (frame_step tac).

Ltac same_field := intros; reflexivity.

Ltac same_outbox :=
  intros;
  first [ reflexivity
        | unfold outbox; cbn [calls]; rewrite published_app; apply app_nil_r ].

Ltac open_handler :=
  unfold updated, update_thumbnail, async_turn_off, async_media_seek,
    async_volume_up, async_volume_down, async_mute_volume,
    async_media_play, async_media_pause, async_media_stop,
    async_media_next_track, async_media_previous_track,
    async_set_volume_level, async_play_media; cbv zeta.

Lemma deliver_maintains {host : Host} (P : World -> Prop) :
  (forall i, maintains P (handler i)) ->
  forall inputs w, P w -> P (deliver inputs w).
Proof.
  intros H inputs. induction inputs as [ | [c i] rest IH]; intros w Hw.
  - exact Hw.
  - cbn [deliver]. apply IH. apply H. exact Hw.
Qed.

Section Frames.

Context {host : Host}.

Lemma handler_keeps_identity (i : Input) :
  keeps (fun w => identity (entity w)) (handler i).
Proof. destruct i; cbn [handler]; open_handler; frame same_field. Qed.

Lemma inbound_keeps_outbox (i : Input) :
  dispatches i = false -> keeps outbox (handler i).
Proof.
  destruct i; cbn [handler dispatches]; try discriminate; intros H;
    open_handler; try (frame same_outbox; fail).
  unfold media_type_accepted in H.
  apply orb_false_iff in H. destruct H as [H Hp].
  apply orb_false_iff in H. destruct H as [Hm Ha].
  rewrite Hm, Ha, Hp. cbn [negb andb]. frame same_outbox.
Qed.

Lemma command_keeps_last_updated (i : Input) :
  is_state_message i = false -> keeps last_updated (handler i).
Proof.
  destruct i; cbn [handler is_state_message]; try discriminate; intros _;
    open_handler; frame same_field.
Qed.

End Frames.

(** ** One message per command *)

Lemma publishes_once_bind {A} (m : M A) (k : A -> M unit) :
  keeps outbox m -> (forall a, publishes_once_if_returns (k a)) ->
  publishes_once_if_returns (bind m k).
Proof.
  intros Hm Hk c w. unfold bind. specialize (Hm c w).
  destruct (m c w) as [[a | e] w']; cbn [fst snd] in *.
  - rewrite Hk, Hm. reflexivity.
  - rewrite Hm. cbn. lia.
Qed.

Lemma publishes_once_send_command (command : string) (data info : pyobj) :
  publishes_once_if_returns (_send_command command data info).
Proof.
  intros c [d th cs]. unfold _send_command, bind, call, self, outbox.
  cbn [fst snd calls entity thumbnail returned].
  rewrite !published_app, !length_app. cbn. lia.
Qed.

Ltac once_step :=
  lazymatch goal with
  | |- publishes_once_if_returns (bind _ _) =>
      apply publishes_once_bind; [frame same_outbox | intros ? ]
  | |- publishes_once_if_returns (_send_command _ _ _) =>
      apply publishes_once_send_command
  end.

Lemma guard_is_not_accepted (t : string) :
  negb (Py.startswith t "music") && negb (Py.startswith t "audio/")
  && negb (Py.startswith t "provider")
  = negb (media_type_accepted t).
Proof.
  unfold media_type_accepted.
  destruct (Py.startswith t "music"), (Py.startswith t "audio/"),
    (Py.startswith t "provider"); reflexivity.
Qed.

Lemma command_publishes_once {host : Host} (i : Input) :
  dispatches i = true -> publishes_once_if_returns (handler i).
Proof.
  destruct i; cbn [handler dispatches]; try discriminate; intros H;
    open_handler; try (repeat once_step; fail).
  rewrite guard_is_not_accepted, H. cbn [negb]. repeat once_step.
Qed.

(** X1: a handler publishes one message exactly when it is a command that
    returns, [async_play_media] counting as one only for a media type it
    accepts; a state or thumbnail message, a command that raises and a
    rejected [async_play_media] publish nothing. *)
Theorem one_publish_per_dispatched_command {host : Host}
    (i : Input) (c : Clock) (w : World) :
  let r := handler i c w in
  length (outbox (snd r))
  = (length (outbox w)
     + (if dispatches i && returned (fst r) then 1 else 0))%nat.
Proof.
  cbv zeta. destruct (dispatches i) eqn:Hi; cbn [andb].
  - apply command_publishes_once. exact Hi.
  - rewrite Nat.add_0_r. f_equal. apply inbound_keeps_outbox. exact Hi.
Qed.

(** X2: no handler assigns the attributes that say which entity this is:
    after any run of messages and commands, whether they returned or raised,
    the entry id, name, device info, command topic, unique id and entity id
    are those the run started with. *)
Theorem identity_is_never_reassigned {host : Host}
    (inputs : list (Clock * Input)) (w : World) :
  identity (entity (deliver inputs w)) = identity (entity w).
Proof.
  apply (deliver_maintains
           (fun w' => identity (entity w') = identity (entity w))).
  - intros i c w' Hw'. rewrite <- Hw'. apply handler_keeps_identity.
  - reflexivity.
Qed.

(** ** Availability *)

Lemma available_reads_last_updated (c : Clock) (w : World) :
  fst (available c w)
  = Returned (Qle_bool (time_time c - last_updated w) (9 # 2)).
Proof.
  unfold available, bind, time_now, self, ret, last_updated. cbn [fst].
  rewrite round_lt_5. reflexivity.
Qed.

(** X3: nothing but a state message writes [_last_updated]: after a
    thumbnail message or a command, [async_play_media] with its assignment
    to [_available] included, [available] answers at any later time what
    it would have answered without it. *)
Theorem commands_do_not_refresh_availability {host : Host}
    (i : Input) (c c' : Clock) (w : World) :
  is_state_message i = false ->
  let w' := snd (handler i c w) in
  _last_updated (entity w') = _last_updated (entity w)
  /\ fst (available c' w') = fst (available c' w).
Proof.
  intros Hi. cbv zeta.
  pose proof (command_keeps_last_updated i Hi c w) as H.
  split; [exact H | ].
  rewrite !available_reads_last_updated, H. reflexivity.
Qed.

Lemma play_media_does_not_refresh_availability :
  let i := do_play_media "music" "http://radio.example/stream.mp3" [] in
  let w := mkWorld Sample.tuned None [] in
  is_state_message i = false
  /\ (let w' := snd (handler (host := Sample.host) i (Sample.at_ 102) w) in
      _last_updated (entity w') = _last_updated (entity w)
      /\ fst (available (Sample.at_ 110) w')
         = fst (available (Sample.at_ 110) w)).
Proof.
  exact (conj eq_refl
           (commands_do_not_refresh_availability (host := Sample.host)
              (do_play_media "music" "http://radio.example/stream.mp3" [])
              (Sample.at_ 102) (Sample.at_ 110)
              (mkWorld Sample.tuned None []) eq_refl)).
Defined.

Lemma stamps_bind {A} (m : M A) (k : A -> M unit) :
  keeps last_updated m -> (forall a, stamps_if_returns (k a)) ->
  stamps_if_returns (bind m k).
Proof.
  intros Hm Hk c w. unfold bind. specialize (Hm c w).
  destruct (m c w) as [[a | e] w']; cbn [fst snd] in *.
  - rewrite Hk, Hm. reflexivity.
  - exact Hm.
Qed.

Lemma stamps_at_the_end :
  stamps_if_returns
    (t <- time_now ;; assign (set_last_updated t) ;; call async_write_ha_state).
Proof. intros c w. reflexivity. Qed.

Lemma updated_stamps (m : ReceiveMessage) : stamps_if_returns (updated m).
Proof.
  unfold updated.
  repeat lazymatch goal with
         | |- stamps_if_returns (bind time_now _) => apply stamps_at_the_end
         | |- stamps_if_returns (bind _ _) =>
             apply stamps_bind; [frame same_field | intros ? ]
         end.
Qed.

(** X4: [updated] stamps [_last_updated] with the time it runs at exactly
    when it returns; a state message on which it raises leaves the stamp,
    and with it what [available] answers, as they were. *)
Theorem updated_refreshes_availability_iff_it_returns
    (m : ReceiveMessage) (c c' : Clock) (w : World) :
  let r := updated m c w in
  let since := if returned (fst r) then time_time c
               else _last_updated (entity w) in
  _last_updated (entity (snd r)) = since
  /\ fst (available c' (snd r))
     = Returned (Qle_bool (time_time c' - since) (9 # 2)).
Proof.
  cbv zeta. pose proof (updated_stamps m c w) as H.
  unfold last_updated in H.
  split; [exact H | ].
  rewrite available_reads_last_updated. unfold last_updated.
  rewrite H. reflexivity.
Qed.

(** ** Invariants of a run *)

Lemma maintains_unchanged {A} (P : World -> Prop) (m : M A) :
  (forall c w, snd (m c w) = w) -> maintains P m.
Proof. intros H c w Hw. rewrite H. exact Hw. Qed.

Lemma maintains_when (P : World -> Prop) (b : bool) (body : M unit) :
  maintains P body -> maintains P (when b body).
Proof.
  intros H. destruct b; [exact H | apply maintains_unchanged; reflexivity].
Qed.

Lemma maintains_assign (P : World -> Prop) g :
  (forall d th cs, P (mkWorld d th cs) -> P (mkWorld (g d) th cs)) ->
  maintains P (assign g).
Proof. intros H c [d th cs]. apply H. Qed.

Lemma maintains_store_thumbnail (P : World -> Prop) b :
  (forall d th cs, P (mkWorld d th cs) -> P (mkWorld d (Some b) cs)) ->
  maintains P (store_thumbnail b).
Proof. intros H c [d th cs]. apply H. Qed.

Lemma maintains_call (P : World -> Prop) x :
  (forall d th cs, P (mkWorld d th cs) -> P (mkWorld d th (cs ++ [x]))) ->
  maintains P (call x).
Proof. intros H c [d th cs]. apply H. Qed.

Ltac invariant_step tac send :=
  lazymatch goal with
  | |- maintains _ (bind (eval _) _) =>
      apply maintains_bind_eval; intros ? ?
  | |- maintains _ (bind _ _) => apply maintains_bind; [ | intros ? ]
  | |- maintains _ (ret _) => apply maintains_unchanged; reflexivity
  | |- maintains _ (eval _) => apply maintains_unchanged; reflexivity
  | |- maintains _ self => apply maintains_unchanged; reflexivity
  | |- maintains _ time_now => apply maintains_unchanged; reflexivity
  | |- maintains _ utcnow => apply maintains_unchanged; reflexivity
  | |- maintains _ (when _ _) => apply maintains_when
  | |- maintains _ (if ?b then _ else _) => destruct b
  | |- maintains _ (assign _) => apply maintains_assign; tac
  | |- maintains _ (store_thumbnail _) => apply maintains_store_thumbnail; tac
  | |- maintains _ (call _) => apply maintains_call; tac
  | |- maintains _ (_send_command _ _ _) => send
  | |- maintains _ (get_or _ _ _) => unfold get_or
  end.

Ltac invariant tac send := repeat (invariant_step tac send).

(** *** What is published *)

Lemma send_command_speaks (t command : string) (data info : pyobj) :
  well_formed_command
    (PyDict [("command", PyStr command); ("data", data); ("info", info)])
  = true ->
  maintains (speaks_on t) (_send_command command data info).
Proof.
  intros Hwf c [d th cs] [H1 H2]. cbn [entity] in H1.
  unfold outbox in H2. cbn [calls] in H2.
  unfold _send_command, bind, call, self, speaks_on, outbox.
  cbn [fst snd calls entity thumbnail].
  split; [exact H1 | ].
  rewrite !published_app, !forallb_app, H2.
  cbn [published forallb]. unfold to_agent. cbn [fst snd].
  rewrite H1, String.eqb_refl, Hwf. reflexivity.
Qed.

Ltac still_speaks :=
  intros ? ? ? [? ?];
  first [ split; assumption
        | split; [assumption | ];
          unfold outbox in *; cbn [calls] in *;
          rewrite published_app, forallb_app;
          match goal with
          | H : forallb _ _ = true |- _ => rewrite H
          end; reflexivity ].

Lemma handler_speaks {host : Host} (t : string) (i : Input) :
  maintains (speaks_on t) (handler i).
Proof.
  destruct i; cbn [handler]; open_handler;
    invariant still_speaks ltac:(apply send_command_speaks; reflexivity).
Qed.

(** X5: whatever is delivered to an entity built by [__init__], every
    message it has published went to the command topic of its device and is
    an object with the keys command, data and info, in which the command is
    one of the ten the agent knows, with the data and info that go with
    it. *)
Theorem every_publish_is_a_command_on_the_command_topic {host : Host}
    (unique_id entry_id : string) (device : DeviceEntry)
    (inputs : list (Clock * Input)) :
  let t := "hass.agent/media_player/" ++ name device ++ "/cmd" in
  forallb (to_agent t)
    (outbox (deliver inputs (fresh unique_id entry_id device))) = true.
Proof.
  cbv zeta.
  apply (deliver_maintains
           (speaks_on ("hass.agent/media_player/" ++ name device ++ "/cmd"))).
  - intros i. apply handler_speaks.
  - split; reflexivity.
Qed.

(** *** The stored state *)

Ltac still_a_string :=
  intros ? ? ? ?;
  first [ assumption
        | reflexivity
        | match goal with
          | E : Py.lower ?x = Returned _ |- _ =>
              destruct x; inversion E; reflexivity
          end ].

Lemma handler_keeps_state_a_string {host : Host} (i : Input) :
  maintains (fun w => state_is_string w = true) (handler i).
Proof.
  destruct i; cbn [handler]; open_handler;
    invariant still_a_string ltac:(unfold _send_command; cbv zeta).
Qed.

Lemma state_of_a_string (d : HassAgentMediaPlayerDevice) (s : string) :
  _state d = PyStr s -> state d <> OFF /\ state d <> ON.
Proof.
  intros H. unfold state. rewrite H. cbn [Py.is_None].
  repeat match goal with
         | |- context [if ?b then _ else _] => destruct b
         end; split; discriminate.
Qed.

(** X6: after any run of messages and commands on an entity built by
    [__init__] the stored state is a string, so that the play state is
    never off (which [state] answers for [None] only) and never on. *)
Theorem play_state_is_never_off {host : Host}
    (unique_id entry_id : string) (device : DeviceEntry)
    (inputs : list (Clock * Input)) :
  let d := entity (deliver inputs (fresh unique_id entry_id device)) in
  (exists s, _state d = PyStr s) /\ state d <> OFF /\ state d <> ON.
Proof.
  cbv zeta.
  assert (H : state_is_string
                (deliver inputs (fresh unique_id entry_id device)) = true).
  { apply (deliver_maintains (fun w => state_is_string w = true)).
    - intros i. apply handler_keeps_state_a_string.
    - reflexivity. }
  unfold state_is_string in H.
  destruct (_state (entity (deliver inputs (fresh unique_id entry_id device))))
    as [ | | | | s | | ] eqn:E; try discriminate H.
  split; [exists s; reflexivity | ].
  apply (state_of_a_string _ s E).
Qed.

(** ** Setting up *)

(** X7: [async_setup_entry] answers False and adds nothing when the registry
    has no device for the entry.  When it has one it answers True and adds
    exactly one entity, built from the entry and the device: its unique id
    and command topic are derived from them, and until a snapshot arrives it
    reads as idle, not muted, at volume 0, and as available only while the
    clock reads at most 4.5 seconds. *)
Theorem setup_entry_adds_one_player_or_none (DOMAIN : string)
    (async_get_device : list (string * string) -> option DeviceEntry)
    (entry : ConfigEntry) (c : Clock) :
  let r := async_setup_entry DOMAIN async_get_device entry in
  match async_get_device [(DOMAIN, unique_id entry)] with
  | None => r = (false, [])
  | Some device =>
      fst r = true
      /\ exists d,
           snd r = [d]
           /\ _attr_unique_id d = "media_player_" ++ unique_id entry
           /\ _command_topic d
              = "hass.agent/media_player/" ++ name device ++ "/cmd"
           /\ info_identifiers (_attr_device_info d) = identifiers device
           /\ state d = IDLE
           /\ is_volume_muted d = PyBool false
           /\ (exists q, volume_level d = Returned q /\ q == 0)
           /\ fst (run available c d)
              = Returned (Qle_bool (time_time c) (9 # 2))
  end.
Proof.
  cbv zeta. unfold async_setup_entry.
  destruct (async_get_device [(DOMAIN, unique_id entry)]) as [device | ];
    [ | reflexivity].
  split; [reflexivity | ]. eexists. split; [reflexivity | ].
  repeat apply conj; try reflexivity.
  - eexists. split; [reflexivity | reflexivity].
  - unfold run. rewrite available_reads_last_updated. f_equal.
    apply Qle_bool_intro. rewrite Qle_bool_iff.
    unfold last_updated. cbn [entity __init__ _last_updated].
    split; intros; lra.
Qed.

(** ** The volume sent *)

Lemma round_nearest (x : Q) :
  x - (1 # 2) <= inject_Z (Py.round x) <= x + (1 # 2).
Proof.
  unfold Py.round.
  pose proof (Qfloor_le x) as Hlo.
  pose proof (Qlt_floor x) as Hhi.
  remember (Qfloor x) as f eqn:Hf. clear Hf.
  rewrite inject_Z_plus in Hhi. change (inject_Z 1) with 1 in Hhi.
  destruct (Qcompare_spec (x - inject_Z f) (1 # 2)) as [E | L | G];
    [destruct (Z.even f) | | ];
    rewrite ?inject_Z_plus; change (inject_Z 1) with 1; split; lra.
Qed.

Lemma two_power (n : Z) : (0 <= n)%Z -> 2 ^ n == inject_Z (2 ^ n).
Proof. intros H. rewrite Zpower_Qpower by exact H. reflexivity. Qed.

(** [Py.log2_floor] is the exponent of the leading bit. *)
Lemma log2_floor_spec (x : Q) :
  0 < x -> 2 ^ Py.log2_floor x <= x /\ x < 2 ^ (Py.log2_floor x + 1).
Proof.
  intros Hx. destruct x as [n d]. unfold Py.log2_floor. cbn [Qnum Qden].
  assert (Hn : (0 < n)%Z) by (unfold Qlt in Hx; cbn in Hx; lia).
  pose proof (Z.log2_spec n Hn) as [Hn1 Hn2].
  pose proof (Z.log2_spec (Zpos d) (Pos2Z.is_pos d)) as [Hd1 Hd2].
  pose proof (Z.log2_nonneg n) as Ha.
  pose proof (Z.log2_nonneg (Zpos d)) as Hb.
  set (a := Z.log2 n) in *. set (b := Z.log2 (Zpos d)) in *.
  assert (H2 : ~ 2 == 0) by discriminate.
  assert (Pa : (0 < 2 ^ a)%Z) by (apply Z.pow_pos_nonneg; lia).
  assert (Pb : (0 < 2 ^ b)%Z) by (apply Z.pow_pos_nonneg; lia).
  assert (Sa : (2 ^ Z.succ a = 2 * 2 ^ a)%Z) by (apply Z.pow_succ_r; lia).
  assert (Sb : (2 ^ Z.succ b = 2 * 2 ^ b)%Z) by (apply Z.pow_succ_r; lia).
  destruct (Qle_bool (2 ^ (a - b)) (n # d)) eqn:E.
  - apply Qle_bool_iff in E. split; [exact E | ].
    replace (a - b + 1)%Z with (Z.succ a - b)%Z by lia.
    rewrite Qpower_minus by exact H2.
    rewrite (two_power (Z.succ a)) by lia. rewrite (two_power b) by lia.
    apply Qlt_shift_div_l.
    + rewrite <- (two_power b) by lia. apply Qpower_0_lt. reflexivity.
    + unfold Qlt, Qmult, inject_Z. cbn [Qnum Qden].
      rewrite Pos.mul_1_r, !Z.mul_1_r. nia.
  - assert (L : n # d < 2 ^ (a - b)).
    { apply Qnot_le_lt. intros C. apply Qle_bool_iff in C. congruence. }
    split.
    + replace (a - b - 1)%Z with (a - Z.succ b)%Z by lia.
      rewrite Qpower_minus by exact H2.
      rewrite (two_power a) by lia. rewrite (two_power (Z.succ b)) by lia.
      apply Qle_shift_div_r.
      * rewrite <- (two_power (Z.succ b)) by lia. apply Qpower_0_lt.
        reflexivity.
      * unfold Qle, Qmult, inject_Z. cbn [Qnum Qden].
        rewrite Pos.mul_1_r, !Z.mul_1_r. nia.
    + replace (a - b - 1 + 1)%Z with (a - b)%Z by lia. exact L.
Qed.

(** A double is within half a unit in the last place of the value it
    rounds. *)
Lemma double_nearest (x : Q) :
  let u := 2 ^ Z.max (Py.log2_floor (Qabs x) - 52) (-1074) in
  x - u * (1 # 2) <= Py.double x <= x + u * (1 # 2).
Proof.
  cbv zeta. unfold Py.double.
  assert (Hu : 0 < 2 ^ Z.max (Py.log2_floor (Qabs x) - 52) (-1074))
    by (apply Qpower_0_lt; reflexivity).
  remember (2 ^ Z.max (Py.log2_floor (Qabs x) - 52) (-1074)) as u eqn:Eu.
  clear Eu.
  destruct (Qeq_bool x 0) eqn:E.
  - apply Qeq_bool_iff in E. split; lra.
  - pose proof (round_nearest (x / u)) as [Hlo Hhi].
    assert (Hx : x / u * u == x)
      by (field; intros C; rewrite C in Hu; discriminate Hu).
    split.
    + apply (Qmult_le_compat_r _ _ u) in Hlo; [ | lra].
      rewrite <- Hx at 1. lra.
    + apply (Qmult_le_compat_r _ _ u) in Hhi; [ | lra].
      rewrite <- Hx at 2. lra.
Qed.

Lemma double_of_percent (x : Q) :
  0 <= x <= 100 ->
  x - (1 # 2 ^ 47) <= Py.double x <= x + (1 # 2 ^ 47).
Proof.
  intros [H0 H100].
  destruct (Qeq_bool x 0) eqn:E.
  - unfold Py.double. rewrite E. apply Qeq_bool_iff in E.
    split; rewrite E; discriminate.
  - assert (Hx : 0 < x).
    { apply Qle_lteq in H0. destruct H0 as [H0 | H0]; [exact H0 | ].
      symmetry in H0. apply Qeq_bool_iff in H0. congruence. }
    pose proof (double_nearest x) as H. cbv zeta in H.
    assert (Habs : Qabs x = x).
    { destruct x as [[ | p | p] d]; try reflexivity.
      unfold Qlt in Hx. cbn in Hx. lia. }
    rewrite Habs in H.
    pose proof (log2_floor_spec x Hx) as [Hl _].
    assert (L : (Py.log2_floor x < 7)%Z).
    { apply (Qpower_lt_compat_l_inv 2); [ | reflexivity].
      apply Qle_lt_trans with x; [exact Hl | ].
      apply Qle_lt_trans with 100; [exact H100 | reflexivity]. }
    assert (U : 2 ^ Z.max (Py.log2_floor x - 52) (-1074) <= 2 ^ (-46)).
    { apply Qpower_le_compat_l; [lia | discriminate]. }
    assert (V : 2 ^ (-46) == 1 # 2 ^ 46) by reflexivity.
    assert (W : (1 # 2 ^ 46) * (1 # 2) == 1 # 2 ^ 47) by reflexivity.
    lra.
Qed.

Lemma round_of_percent (x : Q) :
  - (1 # 4) <= x <= 100 + (1 # 4) -> (0 <= Py.round x <= 100)%Z.
Proof.
  intros [H0 H100]. pose proof (round_nearest x) as [Hlo Hhi].
  assert (L : (-1 < Py.round x)%Z).
  { rewrite Zlt_Qlt. change (inject_Z (-1)) with (-1 # 1). lra. }
  assert (U : (Py.round x < 101)%Z).
  { rewrite Zlt_Qlt. change (inject_Z 101) with (101 # 1). lra. }
  lia.
Qed.

(** X8: for a volume between 0 and 1, [async_set_volume_level] returns,
    leaves the entity as it is and sends one setvolume command whose data is
    the integer nearest to the double product of the volume and 100, a tie
    going to the even one.  That integer is between 0 and 100; the product
    is within [2 ^ -47] of a hundred times the volume, so the integer is
    within one half and [2 ^ -47] of it. *)
Theorem set_volume_level_sends_the_rounded_product
    (volume : Q) (c : Clock) (w : World) :
  0 <= volume <= 1 ->
  exists (product : Q) (n : Z),
    async_set_volume_level volume c w
    = (Returned tt,
       mkWorld (entity w) (thumbnail w)
         ((calls w ++ [logger_debug "Sending command: %s" [PyStr "setvolume"]])
          ++ [mqtt_async_publish (_command_topic (entity w))
                (PyDict [("command", PyStr "setvolume"); ("data", PyInt n);
                         ("info", PyNone)])]))
    /\ product = Py.double (volume * 100)
    /\ n = Py.round product
    /\ (0 <= n <= 100)%Z
    /\ product - (1 # 2) <= inject_Z n <= product + (1 # 2)
    /\ volume * 100 - (1 # 2 ^ 47) <= product <= volume * 100 + (1 # 2 ^ 47).
Proof.
  intros [H0 H1].
  assert (Hp : volume * 100 - (1 # 2 ^ 47) <= Py.double (volume * 100)
               <= volume * 100 + (1 # 2 ^ 47))
    by (apply double_of_percent; split; lra).
  exists (Py.double (volume * 100)), (Py.round (Py.double (volume * 100))).
  repeat apply conj; try reflexivity; try apply round_nearest;
    try apply Hp.
  - apply round_of_percent.
    assert (S : (1 # 2 ^ 47) <= 1 # 4) by discriminate.
    split; lra.
  - apply round_of_percent.
    assert (S : (1 # 2 ^ 47) <= 1 # 4) by discriminate.
    split; lra.
Qed.

Lemma set_volume_level_of_0_015 :
  0 <= Sample.volume_0_015 <= 1
  /\ exists (product : Q) (n : Z),
       async_set_volume_level Sample.volume_0_015 (Sample.at_ 105)
         (mkWorld Sample.tuned None [])
       = (Returned tt,
          mkWorld (entity (mkWorld Sample.tuned None []))
            (thumbnail (mkWorld Sample.tuned None []))
            ((calls (mkWorld Sample.tuned None [])
              ++ [logger_debug "Sending command: %s" [PyStr "setvolume"]])
             ++ [mqtt_async_publish
                   (_command_topic (entity (mkWorld Sample.tuned None [])))
                   (PyDict [("command", PyStr "setvolume");
                            ("data", PyInt n); ("info", PyNone)])]))
       /\ product = Py.double (Sample.volume_0_015 * 100)
       /\ n = Py.round product
       /\ (0 <= n <= 100)%Z
       /\ product - (1 # 2) <= inject_Z n <= product + (1 # 2)
       /\ Sample.volume_0_015 * 100 - (1 # 2 ^ 47) <= product
          <= Sample.volume_0_015 * 100 + (1 # 2 ^ 47).
Proof.
  assert (H : 0 <= Sample.volume_0_015 <= 1) by (split; discriminate).
  exact (conj H
           (set_volume_level_sends_the_rounded_product Sample.volume_0_015
              (Sample.at_ 105) (mkWorld Sample.tuned None []) H)).
Defined.

(** The product of the double 0.015 and 100 is the double 1.5, which rounds
    to 2, while the exact product is below 1.5: the command carries 2. *)
Lemma set_volume_level_of_0_015_sends_2 :
  Sample.volume_0_015 * 100 < 3 # 2
  /\ Py.double (Sample.volume_0_015 * 100) == 3 # 2
  /\ outbox (snd (async_set_volume_level Sample.volume_0_015 (Sample.at_ 105)
                    (mkWorld Sample.tuned None [])))
     = [("hass.agent/media_player/desk/cmd",
         PyDict [("command", PyStr "setvolume"); ("data", PyInt 2);
                 ("info", PyNone)])].
Proof.
  repeat apply conj; reflexivity.
Qed.

(** ** Reading a snapshot back *)

Lemma state_after_snapshot (c : Clock) (p : pyobj)
    (d : HassAgentMediaPlayerDevice) :
  _state (applySnapshot c p d) = PyStr (snapshot_state p).
Proof.
  unfold applySnapshot.
  destruct (snapshot_off p); [reflexivity | ].
  destruct (Py.truthy (field p "title")); reflexivity.
Qed.

Lemma volume_after_snapshot (c : Clock) (p : pyobj)
    (d : HassAgentMediaPlayerDevice) :
  _volume_level (applySnapshot c p d) = field p "volume".
Proof.
  unfold applySnapshot.
  destruct (snapshot_off p); [reflexivity | ].
  destruct (Py.truthy (field p "title")); reflexivity.
Qed.

(** X9: a valid snapshot whose lower-cased state is the value of a member
    of [MediaPlayerState] makes [state] answer that member, except for off
    and on, for which it answers idle. *)
Theorem snapshot_state_reads_back (c : Clock)
    (d : HassAgentMediaPlayerDevice) (m : ReceiveMessage) (p : pyobj)
    (s : MediaPlayerState) :
  json_loads (payload m) = Returned p ->
  valid_snapshot p = true ->
  snapshot_state p = MediaPlayerState_value s ->
  state (entity (snd (run (updated m) c d))) = read_back s.
Proof.
  intros Hp Hv Hs. unfold run.
  rewrite (updated_valid c m p _ Hp Hv). cbn [snd entity].
  unfold state. rewrite state_after_snapshot, Hs.
  destruct s; reflexivity.
Qed.

Lemma snapshot_state_reads_back_playing :
  json_loads (payload Sample.playing)
  = Returned (Sample.snapshot "Playing" 40 (PyStr "Song B"))
  /\ valid_snapshot (Sample.snapshot "Playing" 40 (PyStr "Song B")) = true
  /\ snapshot_state (Sample.snapshot "Playing" 40 (PyStr "Song B"))
     = MediaPlayerState_value PLAYING
  /\ state (entity (snd (run (updated Sample.playing) (Sample.at_ 100)
                           Sample.player)))
     = read_back PLAYING.
Proof.
  exact (conj eq_refl (conj eq_refl (conj eq_refl
           (snapshot_state_reads_back (Sample.at_ 100) Sample.player
              Sample.playing (Sample.snapshot "Playing" 40 (PyStr "Song B"))
              PLAYING eq_refl eq_refl eq_refl)))).
Defined.

(** X10: [updated] stores the volume of a snapshot without looking at its
    type: on a valid snapshot whose volume is no number it returns, and
    from then on [volume_level] raises [TypeError]. *)
Theorem non_numeric_volume_breaks_volume_level (c : Clock)
    (d : HassAgentMediaPlayerDevice) (m : ReceiveMessage) (p : pyobj) :
  json_loads (payload m) = Returned p ->
  valid_snapshot p = true ->
  numeric (field p "volume") = false ->
  let r := run (updated m) c d in
  fst r = Returned tt
  /\ _volume_level (entity (snd r)) = field p "volume"
  /\ volume_level (entity (snd r)) = Raised TypeError.
Proof.
  intros Hp Hv Hn. unfold run. cbv zeta.
  rewrite (updated_valid c m p _ Hp Hv). cbn [fst snd entity].
  unfold volume_level. rewrite volume_after_snapshot.
  repeat apply conj; try reflexivity.
  destruct (field p "volume"); try discriminate Hn; reflexivity.
Qed.

Lemma null_volume_breaks_volume_level :
  let p := decoded Sample.no_volume in
  json_loads (payload Sample.no_volume) = Returned p
  /\ valid_snapshot p = true
  /\ numeric (field p "volume") = false
  /\ (let r := run (updated Sample.no_volume) (Sample.at_ 100) Sample.player in
      fst r = Returned tt
      /\ _volume_level (entity (snd r)) = field p "volume"
      /\ volume_level (entity (snd r)) = Raised TypeError).
Proof.
  exact (conj eq_refl (conj eq_refl (conj eq_refl
           (non_numeric_volume_breaks_volume_level (Sample.at_ 100)
              Sample.player Sample.no_volume (decoded Sample.no_volume)
              eq_refl eq_refl eq_refl)))).
Defined.

(** X11: a valid snapshot that is not off and has a truthy title
    overwrites everything a command may have changed in the mirror: the
    entity it leaves depends on the entity it found through the identity
    attributes, the media id and the image URL only. *)
Theorem full_snapshot_overrides_the_mirror (c : Clock) (m : ReceiveMessage)
    (p : pyobj) (d : HassAgentMediaPlayerDevice) (av : bool)
    (mu vo st : pyobj) (lu : Q) (ti ar an aa du po : pyobj)
    (pu : option datetime) :
  json_loads (payload m) = Returned p ->
  valid_snapshot p = true ->
  snapshot_off p = false ->
  Py.truthy (field p "title") = true ->
  entity (snd (run (updated m) c
                 (remirror d av mu vo st lu ti ar an aa du po pu)))
  = entity (snd (run (updated m) c d)).
Proof.
  intros Hp Hv Hoff Ht. unfold run.
  rewrite !(updated_valid c m p _ Hp Hv). cbn [snd entity].
  unfold applySnapshot. rewrite Hoff, Ht.
  destruct d. reflexivity.
Qed.

Lemma full_snapshot_overrides_a_paused_mirror :
  let p := Sample.snapshot "Playing" 40 (PyStr "Song B") in
  json_loads (payload Sample.playing) = Returned p
  /\ valid_snapshot p = true
  /\ snapshot_off p = false
  /\ Py.truthy (field p "title") = true
  /\ entity (snd (run (updated Sample.playing) (Sample.at_ 100)
                    (remirror Sample.player true (PyBool true) (PyInt 90)
                       (PyStr "paused") 50 (PyStr "Song A") PyNone PyNone
                       PyNone (PyInt 10) (PyFloat 3) (Some 7%Z))))
     = entity (snd (run (updated Sample.playing) (Sample.at_ 100)
                      Sample.player)).
Proof.
  exact (conj eq_refl (conj eq_refl (conj eq_refl (conj eq_refl
           (full_snapshot_overrides_the_mirror (Sample.at_ 100)
              Sample.playing (Sample.snapshot "Playing" 40 (PyStr "Song B"))
              Sample.player true (PyBool true) (PyInt 90) (PyStr "paused") 50
              (PyStr "Song A") PyNone PyNone PyNone (PyInt 10) (PyFloat 3)
              (Some 7%Z) eq_refl eq_refl eq_refl eq_refl))))).
Defined.

(** ** Topics *)

Lemma length_append (s1 s2 : string) :
  String.length (s1 ++ s2) = (String.length s1 + String.length s2)%nat.
Proof.
  induction s1 as [ | a s1 IH]; cbn; [reflexivity | ].
  rewrite IH. reflexivity.
Qed.

Lemma topics_apart (a n x y : string) :
  String.length x <> String.length y -> a ++ n ++ x <> a ++ n ++ y.
Proof.
  intros H E. apply (f_equal String.length) in E.
  rewrite !length_append in E. lia.
Qed.

Lemma in_outbox_to_agent (t : string) (w : World) (tm : string * pyobj) :
  forallb (to_agent t) (outbox w) = true -> In tm (outbox w) ->
  fst tm = t.
Proof.
  intros H Hin. rewrite forallb_forall in H. specialize (H tm Hin).
  unfold to_agent in H. apply andb_true_iff in H. destruct H as [H _].
  apply String.eqb_eq. exact H.
Qed.

(** X12: the entity subscribes to the state and the thumbnail topic of its
    device, under two different keys; the two topics differ from each other
    and, after any run, no message the entity has published went to either
    of them. *)
Theorem nothing_is_published_on_a_subscribed_topic {host : Host}
    (unique_id entry_id : string) (device : DeviceEntry)
    (inputs : list (Clock * Input)) :
  let w := deliver inputs (fresh unique_id entry_id device) in
  let subs := async_added_to_hass (entity w) in
  topics subs
  = ["hass.agent/media_player/" ++ name device ++ "/state";
     "hass.agent/media_player/" ++ name device ++ "/thumbnail"]
  /\ NoDup (topics subs)
  /\ NoDup (map fst subs)
  /\ forall tm, In tm (outbox w) -> ~ In (fst tm) (topics subs).
Proof.
  cbv zeta.
  assert (Hid : identity (entity (deliver inputs
                                    (fresh unique_id entry_id device)))
               = identity (entity (fresh unique_id entry_id device))).
  { apply (deliver_maintains
             (fun w' => identity (entity w')
                        = identity (entity (fresh unique_id entry_id device)))).
    - intros i c w' Hw'. rewrite <- Hw'. apply handler_keeps_identity.
    - reflexivity. }
  assert (Hsp : speaks_on
                  ("hass.agent/media_player/" ++ name device ++ "/cmd")
                  (deliver inputs (fresh unique_id entry_id device))).
  { apply deliver_maintains.
    - intros i. apply handler_speaks.
    - split; reflexivity. }
  unfold identity in Hid. injection Hid as _ _ Hinfo _ Huid _.
  unfold async_added_to_hass, topics. cbn [map snd fst sub_topic].
  rewrite Hinfo, Huid. cbn [fresh entity __init__ _attr_device_info
                             _attr_unique_id info_name].
  assert (Hst : "hass.agent/media_player/" ++ name device ++ "/state"
                <> "hass.agent/media_player/" ++ name device ++ "/thumbnail")
    by (apply topics_apart; discriminate).
  assert (Hk : "media_player_" ++ unique_id ++ "-state"
               <> "media_player_" ++ unique_id ++ "-thumbnail")
    by (apply topics_apart; discriminate).
  split; [reflexivity | ].
  split.
  { constructor; [intros [E | []]; exact (Hst (eq_sym E)) | ].
    constructor; [intros [] | constructor]. }
  split.
  { constructor; [intros [E | []]; exact (Hk (eq_sym E)) | ].
    constructor; [intros [] | constructor]. }
  intros tm Hin.
  assert (Ht : fst tm = "hass.agent/media_player/" ++ name device ++ "/cmd").
  { apply (in_outbox_to_agent _ _ tm (proj2 Hsp) Hin). }
  rewrite Ht. intros [E | [E | []]];
    revert E; apply topics_apart; discriminate.
Qed.

(** ** Browsing and playing *)

(** X13: [async_browse_media] hands the media source a filter that admits
    only what [async_play_media] takes: if the filter admits an item then
    the media type of the item is an accepted one, and playing it publishes
    one command when it returns and none when it raises. *)
Theorem browsable_items_are_playable {host : Host} {Item : Type}
    (item_media_content_type : Item -> string) (item : Item)
    (media_content_type media_content_id : option string)
    (media_id : string) (kwargs : list (string * pyobj))
    (c : Clock) (w : World) :
  async_browse_media item_media_content_type
    (fun _ content_filter => Returned (content_filter item))
    media_content_type media_content_id
  = Returned true ->
  media_type_accepted (item_media_content_type item) = true
  /\ (let r := async_play_media (item_media_content_type item) media_id
                 kwargs c w in
      length (outbox (snd r))
      = (length (outbox w) + (if returned (fst r) then 1 else 0))%nat).
Proof.
  unfold async_browse_media. intros H. injection H as H.
  assert (Ha : media_type_accepted (item_media_content_type item) = true).
  { unfold media_type_accepted. rewrite H. apply orb_true_iff. left.
    apply orb_true_r. }
  split; [exact Ha | ]. cbv zeta.
  apply (command_publishes_once
           (do_play_media (item_media_content_type item) media_id kwargs) Ha).
Qed.

Lemma browsable_mpeg_is_playable :
  let w := mkWorld Sample.tuned None [] in
  async_browse_media (fun s : string => s)
    (fun _ content_filter => Returned (content_filter "audio/mpeg"))
    None None
  = Returned true
  /\ media_type_accepted "audio/mpeg" = true
  /\ (let r := async_play_media (host := Sample.host) "audio/mpeg"
                 "http://radio.example/a.mp3" [] (Sample.at_ 102) w in
      length (outbox (snd r))
      = (length (outbox w) + (if returned (fst r) then 1 else 0))%nat).
Proof.
  exact (conj eq_refl
           (browsable_items_are_playable (host := Sample.host)
              (fun s : string => s) "audio/mpeg" None None
              "http://radio.example/a.mp3" [] (Sample.at_ 102)
              (mkWorld Sample.tuned None []) eq_refl)).
Defined.

(** ** What [async_play_media] ends in *)

Lemma returns_in_bind_forget {A} (P Q : World -> Prop) (m : M A)
    (k : A -> M unit) :
  (forall a, returns_in (fun _ => True) (k a) Q) ->
  returns_in P (bind m k) Q.
Proof.
  intros Hk c w _. unfold bind.
  destruct (m c w) as [[a | e] w']; cbn [fst snd returned].
  - apply Hk. exact I.
  - discriminate.
Qed.

Lemma returns_in_bind_keep {A} (P Q : World -> Prop) (m : M A)
    (k : A -> M unit) :
  maintains P m -> (forall a, returns_in P (k a) Q) ->
  returns_in P (bind m k) Q.
Proof.
  intros Hm Hk c w Hw. unfold bind. specialize (Hm c w Hw).
  destruct (m c w) as [[a | e] w']; cbn [fst snd returned] in *.
  - apply Hk. exact Hm.
  - discriminate.
Qed.

Lemma returns_in_bind_get_or (P Q : World -> Prop) (o : pyobj) (key : string)
    (default : pyobj) (k : pyobj -> M unit) :
  Py.truthy default = true ->
  (forall v, Py.truthy v = true -> returns_in P (k v) Q) ->
  returns_in P (bind (get_or o key (ret default)) k) Q.
Proof.
  intros Hd Hk c w Hw. unfold get_or, bind, eval, ret.
  destruct (Py.get o key) as [v | e]; [ | discriminate].
  destruct (Py.truthy v) eqn:Hv.
  - apply (Hk v Hv c w Hw).
  - apply (Hk default Hd c w Hw).
Qed.

Lemma returns_in_bind_assign (P P' Q : World -> Prop) g (k : unit -> M unit) :
  (forall d th cs, P (mkWorld d th cs) -> P' (mkWorld (g d) th cs)) ->
  returns_in P' (k tt) Q ->
  returns_in P (bind (assign g) k) Q.
Proof.
  intros Hg Hk c [d th cs] Hw. unfold bind, assign.
  cbn [entity thumbnail calls]. apply Hk. apply Hg. exact Hw.
Qed.

Ltac same_title := intros ? ? ? ?; assumption.

Lemma play_media_returns_playing {host : Host} (media_type media_id : string)
    (kwargs : list (string * pyobj)) :
  media_type_accepted media_type = true ->
  returns_in (fun _ => True) (async_play_media media_type media_id kwargs)
    playing_what_it_sent.
Proof.
  intros Ha. unfold async_play_media.
  rewrite guard_is_not_accepted, Ha. cbn [negb]. cbv zeta.
  repeat lazymatch goal with
         | |- returns_in _ (bind (get_or _ "title" _) _) _ => fail
         | |- returns_in _ (bind _ _) _ =>
             apply returns_in_bind_forget; intros ?
         end.
  apply returns_in_bind_get_or; [reflexivity | intros v Hv].
  apply (returns_in_bind_assign _
           (fun w => Py.truthy (_attr_media_title (entity w)) = true));
    [intros; exact Hv | ].
  repeat lazymatch goal with
         | |- returns_in _ (bind (assign (set_available _)) _) _ => fail
         | |- returns_in _ (bind _ _) _ =>
             apply returns_in_bind_keep;
             [invariant same_title ltac:(fail) | intros ? ]
         end.
  intros c [d th cs] Hw _. cbn [entity] in Hw.
  unfold playing_what_it_sent, _send_command, bind, assign, self, call.
  cbn [fst snd entity thumbnail calls].
  repeat apply conj; try reflexivity.
  - exact Hw.
  - exists cs. rewrite <- app_assoc. reflexivity.
Qed.

(** X14: when [async_play_media] returns for an accepted media type, the
    entity reads as playing, its availability flag is set, its title is
    truthy, and the last thing done was the publication, on the command
    topic, of a playmedia command whose data and info are the media id and
    the title, artist, album, album artist and image URL the entity now
    holds. *)
Theorem play_media_sends_what_it_stored {host : Host}
    (media_type media_id : string) (kwargs : list (string * pyobj))
    (c : Clock) (w : World) :
  media_type_accepted media_type = true ->
  let r := async_play_media media_type media_id kwargs c w in
  returned (fst r) = true ->
  playing_what_it_sent (snd r) /\ state (entity (snd r)) = PLAYING.
Proof.
  intros Ha. cbv zeta. intros Hr.
  pose proof (play_media_returns_playing media_type media_id kwargs Ha c w I Hr)
    as H.
  split; [exact H | ].
  unfold playing_what_it_sent in H. cbv zeta in H.
  destruct H as (_ & Hs & _). unfold state. rewrite Hs. reflexivity.
Qed.

Lemma play_media_sends_what_it_stored_stream :
  let kwargs :=
    [("extra", PyDict [("metadata", PyDict [("title", PyStr "Song A")])])] in
  let r := async_play_media (host := Sample.host) "music"
             "http://radio.example/stream.mp3" kwargs (Sample.at_ 102)
             (mkWorld Sample.tuned None []) in
  media_type_accepted "music" = true
  /\ returned (fst r) = true
  /\ playing_what_it_sent (snd r) /\ state (entity (snd r)) = PLAYING.
Proof.
  exact (conj eq_refl (conj eq_refl
           (play_media_sends_what_it_stored (host := Sample.host) "music"
              "http://radio.example/stream.mp3"
              [("extra",
                PyDict [("metadata", PyDict [("title", PyStr "Song A")])])]
              (Sample.at_ 102) (mkWorld Sample.tuned None [])
              eq_refl eq_refl))).
Defined.

(** ** Running a handler step by step *)

Ltac run_py :=
  cbv beta iota zeta delta
    [updated update_thumbnail async_play_media _send_command get_or
     bind ret eval self assign call store_thumbnail time_now utcnow when run
     fst snd entity thumbnail calls
     set_available set_muted set_volume_level set_state set_media_id
     set_last_updated set_attr_media_image_url set_attr_media_title
     set_attr_media_artist set_attr_media_album_name
     set_attr_media_album_artist set_attr_media_duration
     set_attr_media_position set_attr_media_position_updated_at
     _entry_id _name _attr_device_info _command_topic _attr_unique_id
     entity_id _available _muted _volume_level _state _media_id
     _last_updated _attr_media_image_url _attr_media_title
     _attr_media_artist _attr_media_album_name _attr_media_album_artist
     _attr_media_duration _attr_media_position
     _attr_media_position_updated_at].

Ltac atomic x :=
  lazymatch x with
  | Py.getitem _ _ => idtac
  | Py.get _ _ => idtac
  | Py.lower _ => idtac
  | json_loads _ => idtac
  end.

Ltac test x :=
  lazymatch x with
  | Py.truthy _ => idtac
  | Py.ne_str _ _ => idtac
  end.

Ltac branch :=
  match goal with
  | |- context [match ?x with Returned _ => _ | Raised _ => _ end] =>
      atomic x; destruct x
  | |- context [if ?b then _ else _] => test b; destruct b
  end.

(** X15: a state message and a thumbnail message can be handled in either
    order: both orders leave the same entity, thumbnail slot and calls, and
    [updated] completes the same way in both. *)
Theorem state_and_thumbnail_messages_commute {host : Host}
    (m t : ReceiveMessage) (c1 c2 : Clock) (w : World) :
  let a := updated m c1 (snd (update_thumbnail t c2 w)) in
  let b := update_thumbnail t c2 (snd (updated m c1 w)) in
  snd a = snd b /\ fst a = fst (updated m c1 w).
Proof.
  destruct w as [d th cs]. destruct d.
  repeat (run_py; try branch); repeat apply conj; reflexivity.
Qed.

Lemma accepted_passes_the_guard (t : string) :
  media_type_accepted t = true ->
  negb (Py.startswith t "music") && negb (Py.startswith t "audio/")
  && negb (Py.startswith t "provider") = false.
Proof. intros H. rewrite guard_is_not_accepted, H. reflexivity. Qed.

(** X16: when the media id is a media-source id that cannot be resolved,
    [async_play_media] raises what the resolution raised, having logged the
    request and nothing more: no attribute is written and nothing is
    published. *)
Theorem play_media_unresolved_source_changes_nothing {host : Host}
    (media_type media_id : string) (kwargs : list (string * pyobj))
    (c : Clock) (w : World) (e : exn) :
  media_type_accepted media_type = true ->
  is_media_source_id media_id = true ->
  async_resolve_media media_id (entity_id (entity w)) = Raised e ->
  async_play_media media_type media_id kwargs c w
  = (Raised e,
     mkWorld (entity w) (thumbnail w)
       (calls w ++ [logger_debug "Playing media: %s, %s, %s"
                      [PyStr media_type; PyStr media_id; PyDict kwargs]])).
Proof.
  intros Ha Hs Hr. destruct w as [d th cs]. cbn [entity] in Hr.
  unfold async_play_media. rewrite (accepted_passes_the_guard _ Ha), Hs.
  unfold bind, call, self, eval. cbn [entity thumbnail calls].
  rewrite Hr. reflexivity.
Qed.

Lemma play_media_unresolved_source_sample :
  media_type_accepted "audio/mpeg" = true
  /\ is_media_source_id (Host := Sample.host) "media-source://radio/1" = true
  /\ async_resolve_media (Host := Sample.host) "media-source://radio/1"
       (entity_id (entity (mkWorld Sample.tuned None []))) = Raised Unresolvable
  /\ async_play_media (host := Sample.host) "audio/mpeg"
       "media-source://radio/1" [] (Sample.at_ 102)
       (mkWorld Sample.tuned None [])
     = (Raised Unresolvable,
        mkWorld (entity (mkWorld Sample.tuned None []))
          (thumbnail (mkWorld Sample.tuned None []))
          (calls (mkWorld Sample.tuned None [])
           ++ [logger_debug "Playing media: %s, %s, %s"
                 [PyStr "audio/mpeg"; PyStr "media-source://radio/1";
                  PyDict []]])).
Proof.
  exact (conj eq_refl (conj eq_refl (conj eq_refl
           (play_media_unresolved_source_changes_nothing
              (host := Sample.host) "audio/mpeg" "media-source://radio/1" []
              (Sample.at_ 102) (mkWorld Sample.tuned None []) Unresolvable
              eq_refl eq_refl eq_refl)))).
Defined.

(** X17: an [extra] that is truthy and no dict makes [async_play_media]
    raise [AttributeError] after [_media_id] has been overwritten: the
    state, the track and the image URL are as before and nothing is
    published. *)
Theorem play_media_bad_extra_raises_midway {host : Host}
    (media_type media_id : string) (kwargs : list (string * pyobj))
    (extra : pyobj) (c : Clock) (w : World) :
  media_type_accepted media_type = true ->
  is_media_source_id media_id = false ->
  Py.lookup kwargs ATTR_MEDIA_EXTRA = Some extra ->
  Py.truthy extra = true ->
  is_dict extra = false ->
  async_play_media media_type media_id kwargs c w
  = (Raised (AttributeError "get"),
     mkWorld (set_media_id (async_process_play_media_url media_id) (entity w))
       (thumbnail w)
       (calls w ++ [logger_debug "Playing media: %s, %s, %s"
                      [PyStr media_type; PyStr media_id; PyDict kwargs]])).
Proof.
  intros Ha Hs Hx Ht Hd. destruct w as [d th cs].
  unfold async_play_media. rewrite (accepted_passes_the_guard _ Ha), Hs.
  unfold get_or, bind, call, self, eval, assign, ret.
  cbn [entity thumbnail calls Py.get]. rewrite Hx, Ht.
  destruct extra; try discriminate Hd; reflexivity.
Qed.

Lemma play_media_bad_extra_sample :
  let kwargs := [("extra", PyStr "Song A")] in
  let w := mkWorld Sample.tuned None [] in
  media_type_accepted "music" = true
  /\ is_media_source_id (Host := Sample.host) "http://radio.example/a.mp3"
     = false
  /\ Py.lookup kwargs ATTR_MEDIA_EXTRA = Some (PyStr "Song A")
  /\ Py.truthy (PyStr "Song A") = true
  /\ is_dict (PyStr "Song A") = false
  /\ async_play_media (host := Sample.host) "music"
       "http://radio.example/a.mp3" kwargs (Sample.at_ 102) w
     = (Raised (AttributeError "get"),
        mkWorld (set_media_id
                   (async_process_play_media_url (Host := Sample.host)
                      "http://radio.example/a.mp3") (entity w))
          (thumbnail w)
          (calls w ++ [logger_debug "Playing media: %s, %s, %s"
                         [PyStr "music"; PyStr "http://radio.example/a.mp3";
                          PyDict kwargs]])).
Proof.
  exact (conj eq_refl (conj eq_refl (conj eq_refl (conj eq_refl (conj eq_refl
           (play_media_bad_extra_raises_midway (host := Sample.host) "music"
              "http://radio.example/a.mp3" [("extra", PyStr "Song A")]
              (PyStr "Song A") (Sample.at_ 102)
              (mkWorld Sample.tuned None [])
              eq_refl eq_refl eq_refl eq_refl eq_refl)))))).
Defined.

(** X18: without [extra] in its keyword arguments [async_play_media]
    titles the medium Home Assistant, clears artist, album name, album
    artist and image URL, and publishes a playmedia command with these and
    the processed media id. *)
Theorem play_media_without_metadata_names_home_assistant {host : Host}
    (media_type media_id : string) (kwargs : list (string * pyobj))
    (c : Clock) (w : World) :
  media_type_accepted media_type = true ->
  is_media_source_id media_id = false ->
  Py.lookup kwargs ATTR_MEDIA_EXTRA = None ->
  let r := async_play_media media_type media_id kwargs c w in
  let url := async_process_play_media_url media_id in
  fst r = Returned tt
  /\ _media_id (entity (snd r)) = url
  /\ track (entity (snd r)) = (PyStr "Home Assistant", PyNone, PyNone, PyNone)
  /\ _attr_media_image_url (entity (snd r)) = PyNone
  /\ outbox (snd r)
     = (outbox w
        ++ [(_command_topic (entity w),
             PyDict [("command", PyStr "playmedia"); ("data", PyStr url);
                     ("info",
                      PyDict [("title", PyStr "Home Assistant");
                              ("artist", PyNone); ("albumtitle", PyNone);
                              ("albumartist", PyNone);
                              ("image_url", PyNone)])])])%list.
Proof.
  intros Ha Hs Hx. destruct w as [d th cs].
  unfold async_play_media. rewrite (accepted_passes_the_guard _ Ha), Hs.
  unfold get_or, _send_command, bind, call, self, eval, assign, ret.
  cbn [entity thumbnail calls Py.get]. rewrite Hx.
  cbn [Py.truthy Py.lookup Py.get Py.isinstance_list andb fst snd entity
       thumbnail calls].
  unfold outbox. cbn [calls]. rewrite !published_app.
  cbn [published]. rewrite !app_nil_r.
  destruct d. repeat apply conj; reflexivity.
Qed.

Lemma play_media_without_metadata_sample :
  let w := mkWorld Sample.tuned None [] in
  media_type_accepted "music" = true
  /\ is_media_source_id (Host := Sample.host) "http://radio.example/a.mp3"
     = false
  /\ Py.lookup [] ATTR_MEDIA_EXTRA = None
  /\ (let r := async_play_media (host := Sample.host) "music"
                 "http://radio.example/a.mp3" [] (Sample.at_ 102) w in
      let url := async_process_play_media_url (Host := Sample.host)
                   "http://radio.example/a.mp3" in
      fst r = Returned tt
      /\ _media_id (entity (snd r)) = url
      /\ track (entity (snd r))
         = (PyStr "Home Assistant", PyNone, PyNone, PyNone)
      /\ _attr_media_image_url (entity (snd r)) = PyNone
      /\ outbox (snd r)
         = (outbox w
            ++ [(_command_topic (entity w),
                 PyDict [("command", PyStr "playmedia"); ("data", PyStr url);
                         ("info",
                          PyDict [("title", PyStr "Home Assistant");
                                  ("artist", PyNone); ("albumtitle", PyNone);
                                  ("albumartist", PyNone);
                                  ("image_url", PyNone)])])])%list).
Proof.
  exact (conj eq_refl (conj eq_refl (conj eq_refl
           (play_media_without_metadata_names_home_assistant
              (host := Sample.host) "music" "http://radio.example/a.mp3" []
              (Sample.at_ 102) (mkWorld Sample.tuned None [])
              eq_refl eq_refl eq_refl)))).
Defined.

(** ** Commands and the mirror *)



Lemma command_keeps_muted {host : Host} (i : Input) :
  is_state_message i = false ->
  keeps (fun w => (_muted (entity w), _volume_level (entity w))) (handler i).
Proof.
  destruct i; cbn [handler is_state_message]; try discriminate; intros _;
    open_handler; frame same_field.
Qed.

(** X20: volume and mute are never set optimistically: after anything but
    a state message, a set-volume or a mute command included,
    [is_volume_muted] and [volume_level] answer as before. *)
Theorem volume_and_mute_wait_for_the_agent {host : Host}
    (i : Input) (c : Clock) (w : World) :
  is_state_message i = false ->
  let d := entity (snd (handler i c w)) in
  is_volume_muted d = is_volume_muted (entity w)
  /\ volume_level d = volume_level (entity w).
Proof.
  intros Hi. cbv zeta.
  pose proof (command_keeps_muted i Hi c w) as H. cbv beta in H.
  injection H as Hm Hv.
  unfold is_volume_muted, volume_level. rewrite Hm, Hv. split; reflexivity.
Qed.

Lemma mute_waits_for_the_agent :
  let w := mkWorld Sample.tuned None [] in
  is_state_message (do_mute_volume true) = false
  /\ (let d := entity (snd (handler (host := Sample.host)
                              (do_mute_volume true) (Sample.at_ 105) w)) in
      is_volume_muted d = is_volume_muted (entity w)
      /\ volume_level d = volume_level (entity w)).
Proof.
  exact (conj eq_refl
           (volume_and_mute_wait_for_the_agent (host := Sample.host)
              (do_mute_volume true) (Sample.at_ 105)
              (mkWorld Sample.tuned None []) eq_refl)).
Defined.

(** X21: [async_media_seek] stores the position and the current UTC time
    as the position timestamp and leaves every other attribute, the play
    state, the track and the duration among them, and publishes one seek
    command with the position as data. *)
Theorem media_seek_moves_the_position_only (position : Q) (c : Clock)
    (w : World) :
  let r := async_media_seek position c w in
  fst r = Returned tt
  /\ entity (snd r)
     = set_attr_media_position_updated_at (Some (dt_utcnow c))
         (set_attr_media_position (PyFloat position) (entity w))
  /\ state (entity (snd r)) = state (entity w)
  /\ track (entity (snd r)) = track (entity w)
  /\ _attr_media_duration (entity (snd r)) = _attr_media_duration (entity w)
  /\ outbox (snd r)
     = (outbox w
        ++ [(_command_topic (entity w),
             PyDict [("command", PyStr "seek"); ("data", PyFloat position);
                     ("info", PyNone)])])%list.
Proof.
  destruct w as [d th cs]. cbv zeta.
  unfold async_media_seek, _send_command, bind, assign, call, self, utcnow.
  cbn [fst snd entity thumbnail calls].
  repeat apply conj; try reflexivity.
  unfold outbox. cbn [calls]. rewrite !published_app. cbn [published].
  rewrite app_nil_r. reflexivity.
Qed.
